(** * Fury3D texture pool: a shallow embedding of engine/Fury/Texture.cpp

    The development follows the source file from top to bottom: the pool of
    temporary textures ([GetTempory], [CollectTempory], [ReleaseTempories]),
    the pool keys ([GetKeyFromParams], [GetKeyFromPtr]), serialization
    ([Load], [Save]) and the buffer life cycle ([CreateFromImage],
    [CreateEmpty], [UpdateBuffer], [DeleteBuffer]) with the memory
    accounting ([IncreaseMemory], [DecreaseMemory]).

    Texture objects are shared ([std::shared_ptr<Texture>]): they live in a
    heap indexed by addresses, and the pool stores addresses. *)

From Stdlib Require Import ZArith Lia Ascii.
From stdpp Require Import base option gmap strings list pretty.

Set Warnings "-register-all".

Local Open Scope Z_scope.

(** ** What Texture.cpp takes from the rest of the engine

    Texture.cpp includes EnumUtil.h, Texture.h and FileUtil.h and uses their
    enumerations, conversion tables, in-class member initialisers and image
    loader without defining them.  They are the parameters of the
    development: every definition and theorem below holds for each way of
    filling them in. *)

Class Engine := {
  (** enum class TextureFormat; only the enumerators Texture.cpp names *)
  TextureFormat : Type;
  TextureFormat_eq_dec :: EqDecision TextureFormat;
  UNKNOW : TextureFormat;
  RGB8 : TextureFormat;
  RGBA8 : TextureFormat;
  SRGB : TextureFormat;
  SRGB8 : TextureFormat;
  SRGB8_ALPHA8 : TextureFormat;
  SRGB_ALPHA : TextureFormat;
  (** enum class TextureType *)
  TextureType : Type;
  TextureType_eq_dec :: EqDecision TextureType;
  TEXTURE_2D : TextureType;
  TEXTURE_2D_ARRAY : TextureType;
  (** enum class FilterMode, enum class WrapMode *)
  FilterMode : Type;
  FilterMode_eq_dec :: EqDecision FilterMode;
  LINEAR : FilterMode;
  WrapMode : Type;
  WrapMode_eq_dec :: EqDecision WrapMode;
  REPEAT : WrapMode;
  (** class Color, compared with [!=] by SetBorderColor *)
  Color : Type;
  Color_eq_dec :: EqDecision Color;
  Color_Black : Color;
  Color_0000 : Color;
  (** EnumUtil's conversions *)
  TextureFormatToString : TextureFormat -> string;
  TextureFormatFromString : string -> TextureFormat;
  TextureTypeToString : TextureType -> string;
  TextureTypeFromString : string -> TextureType;
  FilterModeToString : FilterMode -> string;
  FilterModeFromString : string -> FilterMode;
  WrapModeToString : WrapMode -> string;
  WrapModeFromString : string -> WrapMode;
  TextureTypeToUnit : TextureType -> Z;
  TextureBitPerPixel : TextureFormat -> Z;
  (** Texture.h: the member initialisers a new texture starts from *)
  init_Format : TextureFormat;
  init_Type : TextureType;
  init_FilterMode : FilterMode;
  init_WrapMode : WrapMode;
  init_Mipmap : bool;
  init_Width : Z;
  init_Height : Z;
  init_Depth : Z;
  init_Dirty : bool;
  (** Texture.h: the default argument of CreateEmpty's last parameter *)
  default_mipMap : bool;
  (** FileUtil::LoadImage(Scene::Path(filePath), pixels, width, height,
      channels): [width] and [height] are passed by reference, so the
      loader sees their current values and returns the new ones, together
      with the success flag and the channel count. *)
  LoadImage : string -> Z -> Z -> bool * (Z * Z) * Z
}.

(** ** Machine integers

    [int] and [unsigned int] are 32 bits wide.  Signed overflow is undefined
    in C++; it is modelled by two's complement wrap-around. *)

Definition wrap_uint (z : Z) : Z := z mod 2 ^ 32.

Definition wrap_int (z : Z) : Z := (z + 2 ^ 31) mod 2 ^ 32 - 2 ^ 31.

Definition int_mul (a b : Z) : Z := wrap_int (a * b).

Definition int_add (a b : Z) : Z := wrap_int (a + b).

(** int * unsigned int: the int operand is converted to unsigned. *)
Definition uint_mul (a b : Z) : Z := wrap_uint (wrap_uint a * wrap_uint b).

(** ** OpenGL texture names *)

Record GLState := mkGLState {
  gl_last : N;          (** the last name glGenTextures handed out *)
  gl_live : list N      (** names generated and not yet deleted *)
}.

(** glGenTextures(1, &id): a new name, never 0. *)
Definition glGenTextures (g : GLState) : N * GLState :=
  let id := N.succ (gl_last g) in
  (id, {| gl_last := id; gl_live := id :: gl_live g |}).

(** glDeleteTextures(1, &id) *)
Definition glDeleteTextures (id : N) (g : GLState) : GLState :=
  {| gl_last := gl_last g;
     gl_live := filter (fun n => n <> id) (gl_live g) |}.

(** ** BufferManager

    Addresses of texture objects. The null pointer is no address. *)
Definition ptr := positive.

(** Modelled from the spec: the state of BufferManager (BufferManager.h
    and BufferManager.cpp are missing).  The spec's "total resident memory
    is tracked as a running byte count, incremented on allocation,
    decremented on deletion" gives the counter; the registry of buffers is
    the set of registered objects, a buffer's id (GetBufferId) being its
    address. *)
Record BufferManager := mkBufferManager {
  m_Buffers : gset ptr;
  m_Memory : Z
}.

(** Modelled from the spec: BufferManager::IncreaseMemory (missing), the
    running byte count "incremented on allocation". *)
Definition BufferManager_IncreaseMemory (bytes : Z) (bm : BufferManager) : BufferManager :=
  {| m_Buffers := m_Buffers bm; m_Memory := m_Memory bm + bytes |}.

(** Modelled from the spec: BufferManager::DecreaseMemory (missing), the
    running byte count "decremented on deletion". *)
Definition BufferManager_DecreaseMemory (bytes : Z) (bm : BufferManager) : BufferManager :=
  {| m_Buffers := m_Buffers bm; m_Memory := m_Memory bm - bytes |}.

(** Modelled from the spec: BufferManager::Add (missing); the spec's
    acquire "registers" a new resource. *)
Definition BufferManager_Add (p : ptr) (bm : BufferManager) : BufferManager :=
  {| m_Buffers := {[ p ]} ∪ m_Buffers bm; m_Memory := m_Memory bm |}.

(** The singletons a texture method reaches: BufferManager::Instance() and
    the GL context. *)
Record Globals := mkGlobals {
  bufferManager : BufferManager;
  gl : GLState
}.

Definition memory (g : Globals) : Z := m_Memory (bufferManager g).

Definition with_bufferManager (f : BufferManager -> BufferManager) (g : Globals) : Globals :=
  {| bufferManager := f (bufferManager g); gl := gl g |}.

Definition with_gl (s : GLState) (g : Globals) : Globals :=
  {| bufferManager := bufferManager g; gl := s |}.

Section Texture.
Context `{Engine}.

(** ** The texture object *)

Record Texture := mkTexture {
  m_Name : string;
  m_Dirty : bool;
  m_Format : TextureFormat;
  m_Type : TextureType;
  m_TypeUint : Z;
  m_FilterMode : FilterMode;
  m_WrapMode : WrapMode;
  m_BorderColor : Color;
  m_Mipmap : bool;
  m_Width : Z;
  m_Height : Z;
  m_Depth : Z;
  m_ID : N;
  m_FilePath : string
}.

Definition set_Name (v : string) (t : Texture) : Texture :=
  mkTexture v (m_Dirty t) (m_Format t) (m_Type t) (m_TypeUint t) (m_FilterMode t)
    (m_WrapMode t) (m_BorderColor t) (m_Mipmap t) (m_Width t) (m_Height t)
    (m_Depth t) (m_ID t) (m_FilePath t).

Definition set_Dirty (v : bool) (t : Texture) : Texture :=
  mkTexture (m_Name t) v (m_Format t) (m_Type t) (m_TypeUint t) (m_FilterMode t)
    (m_WrapMode t) (m_BorderColor t) (m_Mipmap t) (m_Width t) (m_Height t)
    (m_Depth t) (m_ID t) (m_FilePath t).

Definition set_Format (v : TextureFormat) (t : Texture) : Texture :=
  mkTexture (m_Name t) (m_Dirty t) v (m_Type t) (m_TypeUint t) (m_FilterMode t)
    (m_WrapMode t) (m_BorderColor t) (m_Mipmap t) (m_Width t) (m_Height t)
    (m_Depth t) (m_ID t) (m_FilePath t).

Definition set_Type (v : TextureType) (t : Texture) : Texture :=
  mkTexture (m_Name t) (m_Dirty t) (m_Format t) v (m_TypeUint t) (m_FilterMode t)
    (m_WrapMode t) (m_BorderColor t) (m_Mipmap t) (m_Width t) (m_Height t)
    (m_Depth t) (m_ID t) (m_FilePath t).

Definition set_TypeUint (v : Z) (t : Texture) : Texture :=
  mkTexture (m_Name t) (m_Dirty t) (m_Format t) (m_Type t) v (m_FilterMode t)
    (m_WrapMode t) (m_BorderColor t) (m_Mipmap t) (m_Width t) (m_Height t)
    (m_Depth t) (m_ID t) (m_FilePath t).

Definition set_FilterMode (v : FilterMode) (t : Texture) : Texture :=
  mkTexture (m_Name t) (m_Dirty t) (m_Format t) (m_Type t) (m_TypeUint t) v
    (m_WrapMode t) (m_BorderColor t) (m_Mipmap t) (m_Width t) (m_Height t)
    (m_Depth t) (m_ID t) (m_FilePath t).

Definition set_WrapMode (v : WrapMode) (t : Texture) : Texture :=
  mkTexture (m_Name t) (m_Dirty t) (m_Format t) (m_Type t) (m_TypeUint t) (m_FilterMode t)
    v (m_BorderColor t) (m_Mipmap t) (m_Width t) (m_Height t)
    (m_Depth t) (m_ID t) (m_FilePath t).

Definition set_BorderColor (v : Color) (t : Texture) : Texture :=
  mkTexture (m_Name t) (m_Dirty t) (m_Format t) (m_Type t) (m_TypeUint t) (m_FilterMode t)
    (m_WrapMode t) v (m_Mipmap t) (m_Width t) (m_Height t)
    (m_Depth t) (m_ID t) (m_FilePath t).

Definition set_Mipmap (v : bool) (t : Texture) : Texture :=
  mkTexture (m_Name t) (m_Dirty t) (m_Format t) (m_Type t) (m_TypeUint t) (m_FilterMode t)
    (m_WrapMode t) (m_BorderColor t) v (m_Width t) (m_Height t)
    (m_Depth t) (m_ID t) (m_FilePath t).

Definition set_Width (v : Z) (t : Texture) : Texture :=
  mkTexture (m_Name t) (m_Dirty t) (m_Format t) (m_Type t) (m_TypeUint t) (m_FilterMode t)
    (m_WrapMode t) (m_BorderColor t) (m_Mipmap t) v (m_Height t)
    (m_Depth t) (m_ID t) (m_FilePath t).

Definition set_Height (v : Z) (t : Texture) : Texture :=
  mkTexture (m_Name t) (m_Dirty t) (m_Format t) (m_Type t) (m_TypeUint t) (m_FilterMode t)
    (m_WrapMode t) (m_BorderColor t) (m_Mipmap t) (m_Width t) v
    (m_Depth t) (m_ID t) (m_FilePath t).

Definition set_Depth (v : Z) (t : Texture) : Texture :=
  mkTexture (m_Name t) (m_Dirty t) (m_Format t) (m_Type t) (m_TypeUint t) (m_FilterMode t)
    (m_WrapMode t) (m_BorderColor t) (m_Mipmap t) (m_Width t) (m_Height t)
    v (m_ID t) (m_FilePath t).

Definition set_ID (v : N) (t : Texture) : Texture :=
  mkTexture (m_Name t) (m_Dirty t) (m_Format t) (m_Type t) (m_TypeUint t) (m_FilterMode t)
    (m_WrapMode t) (m_BorderColor t) (m_Mipmap t) (m_Width t) (m_Height t)
    (m_Depth t) v (m_FilePath t).

Definition set_FilePath (v : string) (t : Texture) : Texture :=
  mkTexture (m_Name t) (m_Dirty t) (m_Format t) (m_Type t) (m_TypeUint t) (m_FilterMode t)
    (m_WrapMode t) (m_BorderColor t) (m_Mipmap t) (m_Width t) (m_Height t)
    (m_Depth t) (m_ID t) v.

(** Texture::Texture(name): Entity(name), m_BorderColor(0, 0, 0, 0), the
    other members from their initialisers; the body sets m_TypeUint.  A new
    texture owns no GL name (the destructor's DeleteBuffer relies on it) and
    an empty std::string is its file path. *)
Definition Texture_new (name : string) : Texture :=
  {| m_Name := name;
     m_Dirty := init_Dirty;
     m_Format := init_Format;
     m_Type := init_Type;
     m_TypeUint := TextureTypeToUnit init_Type;
     m_FilterMode := init_FilterMode;
     m_WrapMode := init_WrapMode;
     m_BorderColor := Color_0000;
     m_Mipmap := init_Mipmap;
     m_Width := init_Width;
     m_Height := init_Height;
     m_Depth := init_Depth;
     m_ID := 0%N;
     m_FilePath := "" |}.

(** ** Memory accounting (Texture.cpp 492-502) *)

(** m_Width * m_Height * (m_Depth + 1) * bitPerPixel / 8, as C++ evaluates
    it: the three int factors first, then the product with the unsigned
    bitPerPixel and the division in unsigned arithmetic. *)
Definition texture_bytes (width height depth : Z) (format : TextureFormat) : Z :=
  uint_mul (int_mul (int_mul width height) (int_add depth 1))
           (TextureBitPerPixel format) / 8.

Definition footprint (t : Texture) : Z :=
  texture_bytes (m_Width t) (m_Height t) (m_Depth t) (m_Format t).

(** The bytes the buffer manager holds for a texture: its footprint while it
    owns a GL name, nothing otherwise. *)
Definition resident (t : Texture) : Z :=
  if decide (m_ID t = 0%N) then 0 else footprint t.

Definition IncreaseMemory (t : Texture) (g : Globals) : Globals :=
  with_bufferManager (BufferManager_IncreaseMemory (footprint t)) g.

Definition DecreaseMemory (t : Texture) (g : Globals) : Globals :=
  with_bufferManager (BufferManager_DecreaseMemory (footprint t)) g.

(** ** Buffer life cycle

    A method is a function from the object and the globals to the new
    object and the new globals.  The glTexParameter, glTexStorage,
    glTexSubImage, glBindTexture and glGenerateMipmap calls act on GPU
    state only and leave every modelled component as it is. *)

(** Texture::DeleteBuffer (346-359) *)
Definition DeleteBuffer (t : Texture) (g : Globals) : Texture * Globals :=
  let t := set_Dirty true t in
  if decide (m_ID t <> 0%N) then
    let g := DecreaseMemory t g in
    let g := with_gl (glDeleteTextures (m_ID t) (gl g)) g in
    let t := set_ID 0%N t in
    let t := set_Height 0 t in
    let t := set_Width 0 t in
    let t := set_Format UNKNOW t in
    let t := set_FilePath "" t in
    (t, g)
  else (t, g).

(** Texture::IsSRGB (361-365) *)
Definition IsSRGB (t : Texture) : bool :=
  bool_decide (m_Format t = SRGB) || bool_decide (m_Format t = SRGB8)
  || bool_decide (m_Format t = SRGB8_ALPHA8) || bool_decide (m_Format t = SRGB_ALPHA).

(** Texture::CreateFromImage (200-261) *)
Definition CreateFromImage (filePath : string) (srgb mipMap : bool)
    (t : Texture) (g : Globals) : Texture * Globals :=
  let '(t, g) := DeleteBuffer t g in
  let '(ok, (width, height), channels) := LoadImage filePath (m_Width t) (m_Height t) in
  let t := set_Height height (set_Width width t) in
  if ok then
    let finish (format : TextureFormat) :=
      let t := set_Format format t in
      let t := set_Depth 0 t in
      let t := set_Mipmap mipMap t in
      let t := set_FilePath filePath t in
      let t := set_Dirty false t in
      let '(id, s) := glGenTextures (gl g) in
      let t := set_ID id t in
      let g := with_gl s g in
      (t, IncreaseMemory t g) in
    if decide (channels = 3) then finish (if srgb then SRGB8 else RGB8)
    else if decide (channels = 4) then finish (if srgb then SRGB8_ALPHA8 else RGBA8)
    else (set_Format UNKNOW t, g)
  else (t, g).

(** Texture::CreateEmpty (263-314) *)
Definition CreateEmpty (width height depth : Z) (format : TextureFormat)
    (type : TextureType) (mipMap : bool) (t : Texture) (g : Globals) : Texture * Globals :=
  let '(t, g) := DeleteBuffer t g in
  if decide (format = UNKNOW) then (t, g)
  else
    let t := set_Mipmap mipMap t in
    let t := set_Format format t in
    let t := set_Dirty false t in
    let t := set_Width width t in
    let t := set_Height height t in
    let t := set_Depth depth t in
    let t := set_Type type t in
    let t := set_TypeUint (TextureTypeToUnit type) t in
    let '(id, s) := glGenTextures (gl g) in
    let t := set_ID id t in
    let g := with_gl s g in
    (t, IncreaseMemory t g).

(** Texture::UpdateBuffer (333-344); m_ID is unsigned, so [m_ID > 0] is
    [m_ID != 0]. *)
Definition UpdateBuffer (t : Texture) (g : Globals) : Texture * Globals :=
  if decide (m_ID t <> 0%N \/ m_Dirty t = false) then (t, g)
  else
    let t := set_Dirty false t in
    if bool_decide (0 < String.length (m_FilePath t))%nat
    then CreateFromImage (m_FilePath t) (IsSRGB t) (m_Mipmap t) t g
    else CreateEmpty (m_Width t) (m_Height t) (m_Depth t) (m_Format t) (m_Type t)
           (m_Mipmap t) t g.

(** Texture::SetFilterMode (387-403), SetWrapMode (410-427), SetBorderColor
    (434-449): the member changes; the GL calls touch the sampler state. *)
Definition SetFilterMode (mode : FilterMode) (t : Texture) : Texture :=
  if decide (m_FilterMode t <> mode) then set_FilterMode mode t else t.

Definition SetWrapMode (mode : WrapMode) (t : Texture) : Texture :=
  if decide (m_WrapMode t <> mode) then set_WrapMode mode t else t.

Definition SetBorderColor (color : Color) (t : Texture) : Texture :=
  if decide (m_BorderColor t <> color) then set_BorderColor color t else t.

(** Texture::GenerateMipMap (451-460) *)
Definition GenerateMipMap (t : Texture) : Texture :=
  if decide (m_ID t = 0%N) then t else set_Mipmap true t.

(** The calls that change a texture object, and what each runs. *)
Inductive TextureCall :=
| CallCreateFromImage (filePath : string) (srgb mipMap : bool)
| CallCreateEmpty (width height depth : Z) (format : TextureFormat)
    (type : TextureType) (mipMap : bool)
| CallUpdateBuffer
| CallDeleteBuffer
| CallSetFilterMode (mode : FilterMode)
| CallSetWrapMode (mode : WrapMode)
| CallSetBorderColor (color : Color)
| CallGenerateMipMap.

Definition run_call (c : TextureCall) (t : Texture) (g : Globals) : Texture * Globals :=
  match c with
  | CallCreateFromImage filePath srgb mipMap => CreateFromImage filePath srgb mipMap t g
  | CallCreateEmpty width height depth format type mipMap =>
      CreateEmpty width height depth format type mipMap t g
  | CallUpdateBuffer => UpdateBuffer t g
  | CallDeleteBuffer => DeleteBuffer t g
  | CallSetFilterMode mode => (SetFilterMode mode t, g)
  | CallSetWrapMode mode => (SetWrapMode mode t, g)
  | CallSetBorderColor color => (SetBorderColor color t, g)
  | CallGenerateMipMap => (GenerateMipMap t, g)
  end.

(** What no call changes: the memory total less what the texture holds. *)
Definition balance (r : Texture * Globals) : Z := memory r.2 - resident r.1.

(** ** The world: heap, pool and singletons *)

Record World := mkWorld {
  heap : gmap ptr Texture;
  (** static m_TexturePool (14): per key a stack, its top at the head *)
  m_TexturePool : gmap string (list ptr);
  globals : Globals
}.

Definition with_pool (f : gmap string (list ptr) -> gmap string (list ptr)) (w : World) : World :=
  {| heap := heap w; m_TexturePool := f (m_TexturePool w); globals := globals w |}.

(** [p->method(...)]: undefined (None) on a pointer that owns no object. *)
Definition call (p : ptr) (method : Texture -> Globals -> Texture * Globals)
    (w : World) : option World :=
  t ← heap w !! p;
  let '(t', g') := method t (globals w) in
  Some {| heap := <[p := t']> (heap w);
          m_TexturePool := m_TexturePool w;
          globals := g' |}.

(** BufferManager::Instance()->Add(ptr) *)
Definition Add (p : ptr) (w : World) : World :=
  {| heap := heap w;
     m_TexturePool := m_TexturePool w;
     globals := with_bufferManager (BufferManager_Add p) (globals w) |}.

(** Modelled from the spec: BufferManager::Release(id) (BufferManager.cpp
    is missing).  The spec has ReleaseAll "deallocate" the resources it
    reaches: releasing a registered id destroys that object's buffer. *)
Definition BufferManager_Release (id : ptr) (w : World) : World :=
  if decide (id ∈ m_Buffers (bufferManager (globals w))) then
    match call id DeleteBuffer w with
    | Some w' => w'
    | None => w
    end
  else w.

(** Texture::Create (16-21): std::make_shared at a new address. *)
Definition Create (name : string) (w : World) : ptr * World :=
  let p := fresh (dom (heap w)) in
  (p, Add p {| heap := <[p := Texture_new name]> (heap w);
               m_TexturePool := m_TexturePool w;
               globals := globals w |}).

(** Texture::GetKeyFromParams (66-72): operator<< prints an int in decimal,
    with a leading '-' when negative. *)
Definition GetKeyFromParams (width height depth : Z) (format : TextureFormat)
    (type : TextureType) : string :=
  pretty width +:+ "*" +:+ pretty height +:+ "*" +:+ pretty depth +:+ "*" +:+
  TextureFormatToString format +:+ "*" +:+ TextureTypeToString type.

(** Texture::GetKeyFromPtr (74-77) *)
Definition GetKeyFromPtr (t : Texture) : string :=
  GetKeyFromParams (m_Width t) (m_Height t) (m_Depth t) (m_Format t) (m_Type t).

(** Texture::GetTempory (23-41) *)
Definition GetTempory (width height depth : Z) (format : TextureFormat)
    (type : TextureType) (w : World) : option (ptr * World) :=
  let key := GetKeyFromParams width height depth format type in
  match m_TexturePool w !! key with
  | Some (texture :: rest) => Some (texture, with_pool <[key := rest]> w)
  | _ =>
    let '(texture, w) := Create key w in
    w ← call texture (CreateEmpty width height depth format type default_mipMap) w;
    Some (texture, Add texture w)
  end.

(** Texture::CollectTempory (43-51) *)
Definition CollectTempory (p : ptr) (w : World) : option World :=
  t ← heap w !! p;
  let key := GetKeyFromPtr t in
  let pool :=
    match m_TexturePool w !! key with
    | None => <[key := []]> (m_TexturePool w)
    | Some _ => m_TexturePool w
    end in
  Some (with_pool (fun _ => alter (cons p) key pool) w).

(** The while loop of ReleaseTempories (58-62), on the stack it is given:
    it returns what is left of that stack and the new world. *)
Fixpoint release_stack (stack : list ptr) (w : World) : list ptr * World :=
  match stack with
  | [] => ([], w)
  | top :: rest => release_stack rest (BufferManager_Release top w)
  end.

(** Texture::ReleaseTempories (53-64).  [for (auto pair : m_TexturePool)]
    binds [pair] to a copy of each entry: the loop pops the copy's stack,
    and the copy is dropped at the end of the iteration. *)
Definition ReleaseTempories (w : World) : World :=
  foldl (fun w (pair : string * list ptr) => snd (release_stack (snd pair) w))
        w (map_to_list (m_TexturePool w)).

(** ** Vocabulary for the pool's properties *)

(** The bytes held by all texture objects together. *)
Definition total_resident (h : gmap ptr Texture) : Z :=
  map_fold (fun _ t acc => resident t + acc) 0 h.

Definition world_balance (w : World) : Z :=
  memory (globals w) - total_resident (heap w).

(** [p] lies in one of the pool's free stacks. *)
Definition pooled (w : World) (p : ptr) : Prop :=
  exists key stack, m_TexturePool w !! key = Some stack /\ p ∈ stack.

(** [p] is registered with the buffer manager. *)
Definition registered (w : World) (p : ptr) : Prop :=
  p ∈ m_Buffers (bufferManager (globals w)).

(** The object at [p] has the shape that [key] names. *)
Definition has_shape (w : World) (key : string) (p : ptr) : Prop :=
  exists t, heap w !! p = Some t /\ GetKeyFromPtr t = key.

(** The free stack of [key], empty when the pool has no entry for it. *)
Definition free_stack (w : World) (key : string) : list ptr :=
  default [] (m_TexturePool w !! key).

(** A released object: no GL name, and dirty. *)
Definition released (t : Texture) : Prop := m_ID t = 0%N /\ m_Dirty t = true.

(** BufferManager::Release on each address of a list, first to last. *)
Definition release_all (ids : list ptr) (w : World) : World :=
  foldl (fun w p => BufferManager_Release p w) w ids.

(** The addresses in the free stacks, in the order ReleaseTempories meets
    them: entry by entry, each stack from its top. *)
Definition pool_entries (w : World) : list ptr :=
  concat (map snd (map_to_list (m_TexturePool w))).

(** ** Serialization (Texture.cpp 91-198) *)

(** Modelled from the spec: the Serializable helpers and Entity::Load/Save
    (Serializable.cpp and Entity.cpp are missing).  The spec calls the
    format "a declarative, human-editable document" that "must be
    round-trippable": a document is a JSON value, a member is read by name
    and by the type of the variable it is loaded into, and the writer
    receives the keys and values in the order Save issues them.  An entity
    is stored by its name. *)
Inductive JsonValue :=
| JNull
| JBool (b : bool)
| JInt (z : Z)
| JString (s : string)
| JColor (c : Color)
| JObject (members : list (string * JsonValue)).

Inductive JsonEvent :=
| EvStartObject
| EvEndObject
| EvKey (name : string)
| EvValue (v : JsonValue).

(** Modelled from the spec: Serializable's IsObject (missing). *)
Definition IsObject (wrapper : JsonValue) : bool :=
  match wrapper with JObject _ => true | _ => false end.

(** Modelled from the spec: member lookup by name in a document (the JSON
    library is missing); the first member of that name counts. *)
Fixpoint lookup_member (name : string) (members : list (string * JsonValue)) : option JsonValue :=
  match members with
  | [] => None
  | (k, v) :: rest => if String.eqb k name then Some v else lookup_member name rest
  end.

Definition FindMember (wrapper : JsonValue) (name : string) : option JsonValue :=
  match wrapper with
  | JObject members => lookup_member name members
  | _ => None
  end.

(** Modelled from the spec: Serializable's LoadMemberValue(wrapper, name,
    value) (missing), one function per type of [value]: [Some] is a [true]
    result with the value stored, [None] a [false] result. *)
Definition LoadMemberValue_string (wrapper : JsonValue) (name : string) : option string :=
  match FindMember wrapper name with Some (JString s) => Some s | _ => None end.

Definition LoadMemberValue_int (wrapper : JsonValue) (name : string) : option Z :=
  match FindMember wrapper name with Some (JInt z) => Some z | _ => None end.

Definition LoadMemberValue_bool (wrapper : JsonValue) (name : string) : option bool :=
  match FindMember wrapper name with Some (JBool b) => Some b | _ => None end.

Definition LoadMemberValue_Color (wrapper : JsonValue) (name : string) : option Color :=
  match FindMember wrapper name with Some (JColor c) => Some c | _ => None end.

(** Modelled from the spec: Serializable's StartObject, EndObject, SaveKey
    and SaveValue (missing); each appends its event to the writer. *)
Definition StartObject (out : list JsonEvent) : list JsonEvent := out ++ [EvStartObject].
Definition EndObject (out : list JsonEvent) : list JsonEvent := out ++ [EvEndObject].
Definition SaveKey (name : string) (out : list JsonEvent) : list JsonEvent := out ++ [EvKey name].
Definition SaveValue (v : JsonValue) (out : list JsonEvent) : list JsonEvent := out ++ [EvValue v].

(** Modelled from the spec: the document a writer's events describe (the
    JSON library is missing).  First the members of the object whose events
    follow its StartObject. *)
Fixpoint members_of (events : list JsonEvent) : option (list (string * JsonValue)) :=
  match events with
  | [EvEndObject] => Some []
  | EvKey k :: EvValue v :: rest =>
      match members_of rest with
      | Some ms => Some ((k, v) :: ms)
      | None => None
      end
  | _ => None
  end.

Definition document (events : list JsonEvent) : option JsonValue :=
  match events with
  | EvStartObject :: rest =>
      match members_of rest with
      | Some ms => Some (JObject ms)
      | None => None
      end
  | _ => None
  end.

(** Modelled from the spec: Entity::Load (Entity.cpp is missing); an
    entity is loaded from its "name". *)
Definition Entity_Load (wrapper : JsonValue) (object : bool) (t : Texture) : bool * Texture :=
  if object && negb (IsObject wrapper) then (false, t)
  else match LoadMemberValue_string wrapper "name" with
       | Some name => (true, set_Name name t)
       | None => (false, t)
       end.

(** Modelled from the spec: Entity::Save (Entity.cpp is missing). *)
Definition Entity_Save (object : bool) (t : Texture) (out : list JsonEvent) : list JsonEvent :=
  let out := if object then StartObject out else out in
  let out := SaveKey "name" out in
  let out := SaveValue (JString (m_Name t)) out in
  if object then EndObject out else out.

(** Texture::Load (91-155) *)
Definition Load (wrapper : JsonValue) (object : bool) (t : Texture) (g : Globals)
    : bool * Texture * Globals :=
  if object && negb (IsObject wrapper) then (false, t, g)
  else
    let '(ok, t) := Entity_Load wrapper false t in
    if negb ok then (false, t, g)
    else
      let filterMode :=
        match LoadMemberValue_string wrapper "filter" with
        | Some str => FilterModeFromString str
        | None => LINEAR
        end in
      let wrapMode :=
        match LoadMemberValue_string wrapper "wrap" with
        | Some str => WrapModeFromString str
        | None => REPEAT
        end in
      let color := default Color_Black (LoadMemberValue_Color wrapper "borderColor") in
      let t := SetBorderColor color t in
      let mipmap := default false (LoadMemberValue_bool wrapper "mipmap") in
      let t := SetFilterMode filterMode t in
      let t := SetWrapMode wrapMode t in
      match LoadMemberValue_string wrapper "path" with
      | Some str =>
          let srgb := default false (LoadMemberValue_bool wrapper "srgb") in
          let '(t, g) := CreateFromImage str srgb mipmap t g in
          (true, t, g)
      | None =>
          match LoadMemberValue_string wrapper "format" with
          | None => (false, t, g)
          | Some str =>
              let format := TextureFormatFromString str in
              let str := default (TextureTypeToString TEXTURE_2D)
                           (LoadMemberValue_string wrapper "type") in
              let type := TextureTypeFromString str in
              match LoadMemberValue_int wrapper "width" with
              | None => (false, t, g)
              | Some width =>
                  match LoadMemberValue_int wrapper "height" with
                  | None => (false, t, g)
                  | Some height =>
                      let depth := default 0 (LoadMemberValue_int wrapper "depth") in
                      let '(t, g) := CreateEmpty width height depth format type mipmap t g in
                      (true, t, g)
                  end
              end
          end
      end.

(** Texture::Save (157-198) *)
Definition Save (object : bool) (t : Texture) (out : list JsonEvent) : list JsonEvent :=
  let out := if object then StartObject out else out in
  let out := Entity_Save false t out in
  let out :=
    if bool_decide (m_FilePath t = "") then
      let out := SaveKey "format" out in
      let out := SaveValue (JString (TextureFormatToString (m_Format t))) out in
      let out := SaveKey "type" out in
      let out := SaveValue (JString (TextureTypeToString (m_Type t))) out in
      let out := SaveKey "width" out in
      let out := SaveValue (JInt (m_Width t)) out in
      let out := SaveKey "height" out in
      let out := SaveValue (JInt (m_Height t)) out in
      let out := SaveKey "depth" out in
      SaveValue (JInt (m_Depth t)) out
    else
      let out := SaveKey "path" out in
      let out := SaveValue (JString (m_FilePath t)) out in
      let out := SaveKey "srgb" out in
      SaveValue (JBool (IsSRGB t)) out in
  let out := SaveKey "borderColor" out in
  let out := SaveValue (JColor (m_BorderColor t)) out in
  let out := SaveKey "mipmap" out in
  let out := SaveValue (JBool (m_Mipmap t)) out in
  let out := SaveKey "filter" out in
  let out := SaveValue (JString (FilterModeToString (m_FilterMode t))) out in
  let out := SaveKey "wrap" out in
  let out := SaveValue (JString (WrapModeToString (m_WrapMode t))) out in
  if object then EndObject out else out.

End Texture.

Section Histories.
Context `{Engine}.

(** ** Sequences of calls *)

(** What a holder of a texture object can do to it through Texture.cpp:
    one of the calls of [TextureCall], or Load. *)
Inductive TextureOp :=
| OpCall (c : TextureCall)
| OpLoad (wrapper : JsonValue) (object : bool).

Definition run_op (o : TextureOp) (t : Texture) (g : Globals) : Texture * Globals :=
  match o with
  | OpCall c => run_call c t g
  | OpLoad wrapper object =>
      let r := Load wrapper object t g in (r.1.2, r.2)
  end.

(** The operations of a list, first to last. *)
Definition run_ops (os : list TextureOp) (t : Texture) (g : Globals) : Texture * Globals :=
  foldl (fun r o => run_op o r.1 r.2) (t, g) os.

(** The two operations of the pool that hand textures out and take them
    back. *)
Inductive PoolCall :=
| CallGetTempory (width height depth : Z) (format : TextureFormat) (type : TextureType)
| CallCollectTempory (p : ptr).

Definition run_pool_call (c : PoolCall) (w : World) : option World :=
  match c with
  | CallGetTempory width height depth format type =>
      snd <$> GetTempory width height depth format type w
  | CallCollectTempory p => CollectTempory p w
  end.

Fixpoint run_pool_calls (cs : list PoolCall) (w : World) : option World :=
  match cs with
  | [] => Some w
  | c :: rest => w' ← run_pool_call c w; run_pool_calls rest w'
  end.

(** What a program can do with the pool and the textures it holds: the
    three pool functions, and an operation on a texture object. *)
Inductive WorldOp :=
| WGetTempory (width height depth : Z) (format : TextureFormat) (type : TextureType)
| WCollectTempory (p : ptr)
| WReleaseTempories
| WCall (p : ptr) (o : TextureOp).

Definition run_world_op (o : WorldOp) (w : World) : option World :=
  match o with
  | WGetTempory width height depth format type =>
      snd <$> GetTempory width height depth format type w
  | WCollectTempory p => CollectTempory p w
  | WReleaseTempories => Some (ReleaseTempories w)
  | WCall p o => call p (run_op o) w
  end.

Fixpoint run_world_ops (os : list WorldOp) (w : World) : option World :=
  match os with
  | [] => Some w
  | o :: rest => w' ← run_world_op o w; run_world_ops rest w'
  end.

(** Acquire a texture of a shape and return it at once. *)
Definition cycle (width height depth : Z) (format : TextureFormat)
    (type : TextureType) (w : World) : option World :=
  '(p, w1) ← GetTempory width height depth format type w;
  CollectTempory p w1.

(** Every entry of every free stack has the shape its key names. *)
Definition pool_sorted (w : World) : Prop :=
  forall key stack p,
    m_TexturePool w !! key = Some stack -> p ∈ stack -> has_shape w key p.

(** The format CreateFromImage gives an image of 3 channels, and of 4. *)
Definition image_format (srgb : bool) (channels : Z) : TextureFormat :=
  if decide (channels = 3) then (if srgb then SRGB8 else RGB8)
  else (if srgb then SRGB8_ALPHA8 else RGBA8).

(** A texture without a buffer has a format that satisfies [Q] and no
    file path. *)
Definition without_buffer (Q : TextureFormat -> Prop) (t : Texture) : Prop :=
  m_ID t = 0%N -> Q (m_Format t) /\ m_FilePath t = "".

(** A texture with a file path owns a buffer. *)
Definition path_has_buffer (t : Texture) : Prop :=
  without_buffer (fun _ => True) t.

(** A texture without a buffer has neither a format nor a file path. *)
Definition blank_without_buffer (t : Texture) : Prop :=
  without_buffer (fun format => format = UNKNOW) t.

End Histories.

(** ** What the properties ask of EnumUtil's tables *)

(** The separator of the pool key occurs in the string. *)
Fixpoint has_star (s : string) : bool :=
  match s with
  | EmptyString => false
  | String c rest => Ascii.eqb c "*"%char || has_star rest
  end.

(** Formats and types have names of their own, and a format's name does not
    contain the key's separator. *)
Class DistinctNames `{Engine} : Prop := {
  TextureFormatToString_inj :
    forall f1 f2, TextureFormatToString f1 = TextureFormatToString f2 -> f1 = f2;
  TextureTypeToString_inj :
    forall t1 t2, TextureTypeToString t1 = TextureTypeToString t2 -> t1 = t2;
  TextureFormatToString_no_star :
    forall f, has_star (TextureFormatToString f) = false
}.

(** Reading a name back gives the enumerator it was printed from. *)
Class NamesReadBack `{Engine} : Prop := {
  TextureFormat_read_back :
    forall f, TextureFormatFromString (TextureFormatToString f) = f;
  TextureType_read_back :
    forall t, TextureTypeFromString (TextureTypeToString t) = t;
  FilterMode_read_back :
    forall m, FilterModeFromString (FilterModeToString m) = m;
  WrapMode_read_back :
    forall m, WrapModeFromString (WrapModeToString m) = m
}.

(** The formats CreateFromImage gives a linear image are not among the
    formats IsSRGB tests for. *)
Class LinearFormats `{Engine} : Prop := {
  RGB8_linear :
    RGB8 <> SRGB /\ RGB8 <> SRGB8 /\ RGB8 <> SRGB8_ALPHA8 /\ RGB8 <> SRGB_ALPHA;
  RGBA8_linear :
    RGBA8 <> SRGB /\ RGBA8 <> SRGB8 /\ RGBA8 <> SRGB8_ALPHA8 /\ RGBA8 <> SRGB_ALPHA
}.

(** ** A concrete engine configuration

    An instance of the parameters, used to run the model on concrete
    inputs: the enumerators Texture.cpp names, lower-case names as strings,
    zero-initialised members, a new texture dirty, and an image loader that
    knows one 2x2 RGBA file.  Only the runs at the end of the file use it;
    the general theorems hold for every instance. *)
Module Sample.

Inductive Format := unknow | rgb8 | rgba8 | srgb | srgb8 | srgb8_alpha8 | srgb_alpha.
Inductive Kind := texture_2d | texture_2d_array.
Inductive Filter := linear | nearest.
Inductive Wrap := wrap_repeat | wrap_clamp.

#[global] Instance Format_eq_dec : EqDecision Format.
Proof. solve_decision. Defined.
#[global] Instance Kind_eq_dec : EqDecision Kind.
Proof. solve_decision. Defined.
#[global] Instance Filter_eq_dec : EqDecision Filter.
Proof. solve_decision. Defined.
#[global] Instance Wrap_eq_dec : EqDecision Wrap.
Proof. solve_decision. Defined.

Definition format_name (f : Format) : string :=
  match f with
  | unknow => "unknow" | rgb8 => "rgb8" | rgba8 => "rgba8" | srgb => "srgb"
  | srgb8 => "srgb8" | srgb8_alpha8 => "srgb8_alpha8" | srgb_alpha => "srgb_alpha"
  end.

Definition format_of_name (s : string) : Format :=
  if String.eqb s "rgb8" then rgb8
  else if String.eqb s "rgba8" then rgba8
  else if String.eqb s "srgb" then srgb
  else if String.eqb s "srgb8" then srgb8
  else if String.eqb s "srgb8_alpha8" then srgb8_alpha8
  else if String.eqb s "srgb_alpha" then srgb_alpha
  else unknow.

Definition kind_name (k : Kind) : string :=
  match k with texture_2d => "2d" | texture_2d_array => "2d_array" end.

Definition kind_of_name (s : string) : Kind :=
  if String.eqb s "2d_array" then texture_2d_array else texture_2d.

Definition filter_name (f : Filter) : string :=
  match f with linear => "linear" | nearest => "nearest" end.

Definition filter_of_name (s : string) : Filter :=
  if String.eqb s "nearest" then nearest else linear.

Definition wrap_name (m : Wrap) : string :=
  match m with wrap_repeat => "repeat" | wrap_clamp => "clamp" end.

Definition wrap_of_name (s : string) : Wrap :=
  if String.eqb s "clamp" then wrap_clamp else wrap_repeat.

Definition bits (f : Format) : Z :=
  match f with
  | unknow => 0 | rgb8 => 24 | rgba8 => 32 | srgb => 24
  | srgb8 => 24 | srgb8_alpha8 => 32 | srgb_alpha => 32
  end.

Definition gl_target (k : Kind) : Z :=
  match k with texture_2d => 3553 | texture_2d_array => 35866 end.

Definition load_image (path : string) (width height : Z) : bool * (Z * Z) * Z :=
  if String.eqb path "a.png" then (true, (2, 2), 4) else (false, (width, height), 0).

#[global] Instance engine : Engine := {|
  TextureFormat := Format;
  UNKNOW := unknow; RGB8 := rgb8; RGBA8 := rgba8; SRGB := srgb;
  SRGB8 := srgb8; SRGB8_ALPHA8 := srgb8_alpha8; SRGB_ALPHA := srgb_alpha;
  TextureType := Kind;
  TEXTURE_2D := texture_2d; TEXTURE_2D_ARRAY := texture_2d_array;
  FilterMode := Filter; LINEAR := linear;
  WrapMode := Wrap; REPEAT := wrap_repeat;
  Color := Z * Z * Z * Z;
  Color_Black := (0, 0, 0, 1);
  Color_0000 := (0, 0, 0, 0);
  TextureFormatToString := format_name;
  TextureFormatFromString := format_of_name;
  TextureTypeToString := kind_name;
  TextureTypeFromString := kind_of_name;
  FilterModeToString := filter_name;
  FilterModeFromString := filter_of_name;
  WrapModeToString := wrap_name;
  WrapModeFromString := wrap_of_name;
  TextureTypeToUnit := gl_target;
  TextureBitPerPixel := bits;
  init_Format := unknow;
  init_Type := texture_2d;
  init_FilterMode := linear;
  init_WrapMode := wrap_repeat;
  init_Mipmap := false;
  init_Width := 0;
  init_Height := 0;
  init_Depth := 0;
  init_Dirty := true;
  default_mipMap := false;
  LoadImage := load_image
|}.

(** No texture, an empty pool, nothing registered, no memory in use. *)
Definition globals0 : Globals :=
  {| bufferManager := {| m_Buffers := ∅; m_Memory := 0 |};
     gl := {| gl_last := 0; gl_live := [] |} |}.

Definition world0 : World :=
  {| heap := ∅; m_TexturePool := ∅; globals := globals0 |}.

(** The key of a 4x4 RGBA8 2D texture, and such a texture as GetTempory
    makes it on [world0]. *)
Definition key1 : string := GetKeyFromParams 4 4 0 RGBA8 TEXTURE_2D.

Definition texture1 : Texture :=
  (CreateEmpty 4 4 0 RGBA8 TEXTURE_2D false (Texture_new key1)
     (with_bufferManager (BufferManager_Add 1%positive) globals0)).1.

(** [world0] after GetTempory(4, 4, 0, RGBA8, TEXTURE_2D): one texture,
    checked out. *)
Definition world1 : World :=
  match GetTempory 4 4 0 RGBA8 TEXTURE_2D world0 with
  | Some (_, w) => w
  | None => world0
  end.

(** [world1] after CollectTempory of that texture: it lies in the pool. *)
Definition world2 : World :=
  match CollectTempory 1%positive world1 with
  | Some w => w
  | None => world1
  end.

(** A texture that was declared as 4x4 RGBA8 and has no buffer yet. *)
Definition declared : Texture :=
  set_Format RGBA8 (set_Width 4 (set_Height 4 (Texture_new "declared"))).

(** [world1] after a second GetTempory(4, 4, 0, RGBA8, TEXTURE_2D): two
    textures of one shape, both checked out. *)
Definition world3 : World :=
  match GetTempory 4 4 0 RGBA8 TEXTURE_2D world1 with
  | Some (_, w) => w
  | None => world1
  end.

(** The second texture of [world3]. *)
Definition texture2 : Texture :=
  (CreateEmpty 4 4 0 RGBA8 TEXTURE_2D false (Texture_new key1)
     (with_bufferManager (BufferManager_Add 2%positive) (globals world1))).1.

(** Acquire a 4x4 texture, return it, acquire an 8x8 one; and the world
    this leads to from [world0]. *)
Definition pool_history : list PoolCall :=
  [CallGetTempory 4 4 0 RGBA8 TEXTURE_2D; CallCollectTempory 1%positive;
   CallGetTempory 8 8 0 RGBA8 TEXTURE_2D].

Definition world4 : World :=
  match run_pool_calls pool_history world0 with
  | Some w => w
  | None => world0
  end.

(** Two textures acquired, the first resized by its holder and returned,
    the pool released. *)
Definition world_history : list WorldOp :=
  [WGetTempory 4 4 0 RGBA8 TEXTURE_2D; WGetTempory 4 4 0 RGBA8 TEXTURE_2D;
   WCall 1%positive (OpCall (CallCreateEmpty 8 8 0 RGBA8 TEXTURE_2D false));
   WCollectTempory 1%positive; WReleaseTempories].

Definition world5 : World :=
  match run_world_ops world_history world0 with
  | Some w => w
  | None => world0
  end.

(** Create a buffer, delete it, ask for it again. *)
Definition texture_history : list TextureOp :=
  [OpCall (CallCreateEmpty 4 4 0 RGBA8 TEXTURE_2D false); OpCall CallDeleteBuffer;
   OpCall CallUpdateBuffer].

(** The texture CreateFromImage makes of the file the loader knows. *)
Definition image1 : Texture :=
  (CreateFromImage "a.png" true true (Texture_new "image") globals0).1.

(** A document with the members Load cannot do without, and one that
    lacks the format. *)
Definition minimal_doc : JsonValue :=
  JObject [("name", JString "minimal"); ("format", JString "rgba8");
           ("width", JInt 4); ("height", JInt 8)].

Definition formatless_doc : JsonValue :=
  JObject [("name", JString "formatless"); ("filter", JString "nearest");
           ("width", JInt 4); ("height", JInt 8)].

End Sample.

(** * Properties *)

Section DeleteBufferEquations.
Context `{Engine}.

(** ** DeleteBuffer *)

Lemma DeleteBuffer_unallocated t g :
  m_ID t = 0%N -> DeleteBuffer t g = (set_Dirty true t, g).
Proof.
  intros Hid. unfold DeleteBuffer. simpl.
  destruct (decide (m_ID t <> 0%N)) as [Hne | _]; [congruence | reflexivity].
Qed.

Lemma DeleteBuffer_allocated t g :
  m_ID t <> 0%N ->
  DeleteBuffer t g =
    (mkTexture (m_Name t) true UNKNOW (m_Type t) (m_TypeUint t) (m_FilterMode t)
       (m_WrapMode t) (m_BorderColor t) (m_Mipmap t) 0 0 (m_Depth t) 0%N "",
     {| bufferManager := BufferManager_DecreaseMemory (footprint t) (bufferManager g);
        gl := glDeleteTextures (m_ID t) (gl g) |}).
Proof.
  intros Hid. unfold DeleteBuffer. simpl.
  destruct (decide (m_ID t <> 0%N)) as [_ | Hne]; [reflexivity | contradiction].
Qed.

End DeleteBufferEquations.

(** Both ways through DeleteBuffer, each with its equation rewritten. *)
Ltac DeleteBuffer_cases t g :=
  let Hid := fresh "Hid" in
  destruct (decide (m_ID t = 0%N)) as [Hid | Hid];
  [ rewrite (DeleteBuffer_unallocated t g Hid)
  | rewrite (DeleteBuffer_allocated t g Hid) ].

Section BufferLifeCycle.
Context `{Engine}.

Lemma DeleteBuffer_ID t g : m_ID (DeleteBuffer t g).1 = 0%N.
Proof. DeleteBuffer_cases t g; [assumption | reflexivity]. Qed.

Lemma DeleteBuffer_Dirty t g : m_Dirty (DeleteBuffer t g).1 = true.
Proof. DeleteBuffer_cases t g; reflexivity. Qed.

Lemma DeleteBuffer_gl_last t g : gl_last (gl (DeleteBuffer t g).2) = gl_last (gl g).
Proof. DeleteBuffer_cases t g; reflexivity. Qed.

Lemma glDeleteTextures_gone id s : id ∉ gl_live (glDeleteTextures id s).
Proof.
  unfold glDeleteTextures. simpl. rewrite list_elem_of_filter. tauto.
Qed.

Lemma DeleteBuffer_memory t g :
  memory (DeleteBuffer t g).2 = memory g - resident t.
Proof.
  unfold resident. DeleteBuffer_cases t g.
  - simpl. lia.
  - reflexivity.
Qed.

Lemma DeleteBuffer_resident t g : resident (DeleteBuffer t g).1 = 0.
Proof.
  unfold resident. rewrite DeleteBuffer_ID.
  destruct (decide (0%N = 0%N)); [reflexivity | contradiction].
Qed.

Lemma DeleteBuffer_buffers t g :
  m_Buffers (bufferManager (DeleteBuffer t g).2) = m_Buffers (bufferManager g).
Proof. DeleteBuffer_cases t g; reflexivity. Qed.

(** ** CreateEmpty *)

Lemma CreateEmpty_unknow width height depth type mipMap t g :
  CreateEmpty width height depth UNKNOW type mipMap t g = DeleteBuffer t g.
Proof.
  unfold CreateEmpty. destruct (DeleteBuffer t g) as [t' g'].
  destruct (decide (UNKNOW = UNKNOW)); [reflexivity | contradiction].
Qed.

Lemma CreateEmpty_known width height depth format type mipMap t g :
  format <> UNKNOW ->
  CreateEmpty width height depth format type mipMap t g =
    let t1 := (DeleteBuffer t g).1 in
    let g1 := (DeleteBuffer t g).2 in
    (mkTexture (m_Name t1) false format type (TextureTypeToUnit type)
       (m_FilterMode t1) (m_WrapMode t1) (m_BorderColor t1) mipMap
       width height depth (N.succ (gl_last (gl g1))) (m_FilePath t1),
     {| bufferManager :=
          BufferManager_IncreaseMemory (texture_bytes width height depth format)
            (bufferManager g1);
        gl := (glGenTextures (gl g1)).2 |}).
Proof.
  intros Hf. unfold CreateEmpty. destruct (DeleteBuffer t g) as [t' g'].
  destruct (decide (format = UNKNOW)); [contradiction | reflexivity].
Qed.

End BufferLifeCycle.

Section BufferTheorems.
Context `{Engine}.

(** C10. CreateEmpty with format UNKNOW is DeleteBuffer and nothing more:
    the texture ends without a GL name and dirty, no GL name is generated;
    a buffer that existed is destroyed first (the memory total drops by its
    footprint, its GL name is deleted, width and height become 0), and a
    texture without a buffer only becomes dirty. *)
Theorem CreateEmpty_UNKNOW_only_deletes width height depth type mipMap t g :
  let r := CreateEmpty width height depth UNKNOW type mipMap t g in
  r = DeleteBuffer t g
  /\ m_ID r.1 = 0%N
  /\ m_Dirty r.1 = true
  /\ gl_last (gl r.2) = gl_last (gl g)
  /\ (m_ID t <> 0%N ->
      memory r.2 = memory g - footprint t
      /\ m_Width r.1 = 0 /\ m_Height r.1 = 0
      /\ m_ID t ∉ gl_live (gl r.2))
  /\ (m_ID t = 0%N -> r = (set_Dirty true t, g)).
Proof.
  cbv zeta. rewrite CreateEmpty_unknow.
  split; [reflexivity |].
  split; [apply DeleteBuffer_ID |].
  split; [apply DeleteBuffer_Dirty |].
  split; [apply DeleteBuffer_gl_last |].
  split.
  - intros Hid. rewrite DeleteBuffer_allocated by assumption. simpl.
    repeat split. apply glDeleteTextures_gone.
  - intros Hid. apply DeleteBuffer_unallocated. assumption.
Qed.

(** ** UpdateBuffer *)

Lemma UpdateBuffer_skip t g :
  m_ID t <> 0%N \/ m_Dirty t = false -> UpdateBuffer t g = (t, g).
Proof.
  intros Hskip. unfold UpdateBuffer.
  destruct (decide (m_ID t <> 0%N \/ m_Dirty t = false)); [reflexivity | contradiction].
Qed.

Lemma UpdateBuffer_run t g :
  m_ID t = 0%N -> m_Dirty t = true ->
  UpdateBuffer t g =
    if bool_decide (0 < String.length (m_FilePath t))%nat
    then CreateFromImage (m_FilePath t) (IsSRGB t) (m_Mipmap t) (set_Dirty false t) g
    else CreateEmpty (m_Width t) (m_Height t) (m_Depth t) (m_Format t) (m_Type t)
           (m_Mipmap t) (set_Dirty false t) g.
Proof.
  intros Hid Hdirty. unfold UpdateBuffer.
  destruct (decide (m_ID t <> 0%N \/ m_Dirty t = false)) as [[Hne | Hd] | _].
  - congruence.
  - congruence.
  - reflexivity.
Qed.

Lemma length_pos_nonempty (s : string) : (0 < String.length s)%nat <-> s <> "".
Proof.
  destruct s; simpl; split; intros Hs; try lia; congruence.
Qed.

Lemma set_Dirty_same t : set_Dirty (m_Dirty t) t = t.
Proof. destruct t; reflexivity. Qed.

(** C9 (amended). UpdateBuffer changes nothing when the texture owns a GL
    name or is not dirty.  Otherwise it clears the dirty flag and calls
    CreateFromImage on the stored path when there is one, else CreateEmpty
    on the stored parameters.  In the latter case a stored format other than
    UNKNOW gives a buffer of the stored shape, charged to the memory total,
    and a clean texture; with the stored format UNKNOW nothing is allocated
    and the texture is exactly as before, still dirty. *)
Theorem UpdateBuffer_lazy t g :
  (m_ID t <> 0%N \/ m_Dirty t = false -> UpdateBuffer t g = (t, g))
  /\ (m_ID t = 0%N -> m_Dirty t = true -> m_FilePath t <> "" ->
      UpdateBuffer t g =
        CreateFromImage (m_FilePath t) (IsSRGB t) (m_Mipmap t) (set_Dirty false t) g)
  /\ (m_ID t = 0%N -> m_Dirty t = true -> m_FilePath t = "" ->
      UpdateBuffer t g =
        CreateEmpty (m_Width t) (m_Height t) (m_Depth t) (m_Format t) (m_Type t)
          (m_Mipmap t) (set_Dirty false t) g)
  /\ (m_ID t = 0%N -> m_Dirty t = true -> m_FilePath t = "" -> m_Format t <> UNKNOW ->
      let r := UpdateBuffer t g in
      m_Dirty r.1 = false /\ m_ID r.1 <> 0%N /\ m_ID r.1 ∈ gl_live (gl r.2)
      /\ m_Width r.1 = m_Width t /\ m_Height r.1 = m_Height t
      /\ m_Depth r.1 = m_Depth t /\ m_Format r.1 = m_Format t
      /\ m_Type r.1 = m_Type t /\ m_Mipmap r.1 = m_Mipmap t
      /\ memory r.2 = memory g + footprint t)
  /\ (m_ID t = 0%N -> m_Dirty t = true -> m_FilePath t = "" -> m_Format t = UNKNOW ->
      UpdateBuffer t g = (t, g)).
Proof.
  split; [apply UpdateBuffer_skip |].
  split.
  { intros Hid Hd Hpath. rewrite UpdateBuffer_run by assumption.
    rewrite bool_decide_eq_true_2; [reflexivity |].
    apply length_pos_nonempty. assumption. }
  assert (Hempty : m_ID t = 0%N -> m_Dirty t = true -> m_FilePath t = "" ->
      UpdateBuffer t g =
        CreateEmpty (m_Width t) (m_Height t) (m_Depth t) (m_Format t) (m_Type t)
          (m_Mipmap t) (set_Dirty false t) g).
  { intros Hid Hd Hpath. rewrite UpdateBuffer_run by assumption.
    rewrite bool_decide_eq_false_2; [reflexivity |].
    rewrite Hpath. simpl. lia. }
  split; [exact Hempty |].
  split.
  - intros Hid Hd Hpath Hf. cbv zeta. rewrite Hempty by assumption.
    rewrite CreateEmpty_known by assumption.
    rewrite DeleteBuffer_unallocated by (simpl; assumption).
    simpl. repeat split.
    + lia.
    + apply list_elem_of_here.
  - intros Hid Hd Hpath Hf. rewrite Hempty by assumption.
    rewrite Hf, CreateEmpty_unknow.
    rewrite DeleteBuffer_unallocated by (simpl; assumption).
    f_equal. destruct t; simpl in *. subst. reflexivity.
Qed.

End BufferTheorems.

Section MemoryAccounting.
Context `{Engine}.

Lemma balance_DeleteBuffer t g : balance (DeleteBuffer t g) = balance (t, g).
Proof.
  unfold balance. rewrite DeleteBuffer_memory, DeleteBuffer_resident. simpl. lia.
Qed.

Lemma balance_unallocated t g : m_ID t = 0%N -> balance (t, g) = memory g.
Proof.
  intros Hid. unfold balance, resident. simpl. rewrite decide_True by assumption. lia.
Qed.

Lemma balance_CreateEmpty width height depth format type mipMap t g :
  balance (CreateEmpty width height depth format type mipMap t g) = balance (t, g).
Proof.
  rewrite <- (balance_DeleteBuffer t g).
  pose proof (DeleteBuffer_ID t g) as Hid.
  unfold CreateEmpty. destruct (DeleteBuffer t g) as [t1 g1]. simpl in Hid.
  destruct (decide (format = UNKNOW)); [reflexivity |].
  rewrite (balance_unallocated t1 g1) by assumption.
  unfold balance, resident, memory. simpl. unfold footprint. simpl.
  rewrite decide_False by lia. lia.
Qed.

Lemma balance_CreateFromImage filePath srgb mipMap t g :
  balance (CreateFromImage filePath srgb mipMap t g) = balance (t, g).
Proof.
  rewrite <- (balance_DeleteBuffer t g).
  pose proof (DeleteBuffer_ID t g) as Hid.
  unfold CreateFromImage. destruct (DeleteBuffer t g) as [t1 g1]. simpl in Hid.
  destruct (LoadImage filePath (m_Width t1) (m_Height t1)) as [[ok [width height]] channels].
  rewrite (balance_unallocated t1 g1) by assumption.
  destruct ok.
  - destruct (decide (channels = 3)); [| destruct (decide (channels = 4))].
    + unfold balance, resident, memory. simpl. unfold footprint. simpl.
      rewrite decide_False by lia. lia.
    + unfold balance, resident, memory. simpl. unfold footprint. simpl.
      rewrite decide_False by lia. lia.
    + apply balance_unallocated. simpl. assumption.
  - apply balance_unallocated. simpl. assumption.
Qed.

Lemma balance_UpdateBuffer t g : balance (UpdateBuffer t g) = balance (t, g).
Proof.
  unfold UpdateBuffer.
  destruct (decide (m_ID t <> 0%N \/ m_Dirty t = false)); [reflexivity |].
  destruct (bool_decide (0 < String.length (m_FilePath (set_Dirty false t)))%nat).
  - rewrite balance_CreateFromImage. reflexivity.
  - rewrite balance_CreateEmpty. reflexivity.
Qed.

Lemma balance_run_call c t g : balance (run_call c t g) = balance (t, g).
Proof.
  destruct c; simpl.
  - apply balance_CreateFromImage.
  - apply balance_CreateEmpty.
  - apply balance_UpdateBuffer.
  - apply balance_DeleteBuffer.
  - unfold SetFilterMode. destruct (decide _); reflexivity.
  - unfold SetWrapMode. destruct (decide _); reflexivity.
  - unfold SetBorderColor. destruct (decide _); reflexivity.
  - unfold GenerateMipMap. destruct (decide _); reflexivity.
Qed.

End MemoryAccounting.

Section Pool.
Context `{Engine}.

(** ** CollectTempory *)

Lemma CollectTempory_pool p t w :
  heap w !! p = Some t ->
  CollectTempory p w =
    Some (with_pool (fun pool => <[GetKeyFromPtr t := p :: free_stack w (GetKeyFromPtr t)]> pool) w).
Proof.
  intros Hp. unfold CollectTempory, free_stack. rewrite Hp. simpl.
  unfold with_pool. simpl. do 2 f_equal.
  apply map_eq. intros k.
  destruct (decide (k = GetKeyFromPtr t)) as [-> | Hk].
  - rewrite lookup_insert_eq.
    destruct (m_TexturePool w !! GetKeyFromPtr t) as [stack |] eqn:Hs.
    + rewrite lookup_alter_eq, Hs. reflexivity.
    + rewrite lookup_alter_eq, lookup_insert_eq. reflexivity.
  - rewrite lookup_insert_ne by congruence.
    destruct (m_TexturePool w !! GetKeyFromPtr t) as [stack |] eqn:Hs.
    + rewrite lookup_alter_ne by congruence. reflexivity.
    + rewrite lookup_alter_ne, lookup_insert_ne by congruence. reflexivity.
Qed.

(** C5. CollectTempory on a texture object pushes its address on top of
    the free stack of the object's key (an empty stack when the pool had
    none); every other key's stack, every texture object and the globals
    (memory total, registry, GL names) are as before. *)
Theorem CollectTempory_pushes p t w :
  heap w !! p = Some t ->
  exists w',
    CollectTempory p w = Some w'
    /\ m_TexturePool w' !! GetKeyFromPtr t = Some (p :: free_stack w (GetKeyFromPtr t))
    /\ (forall key, key <> GetKeyFromPtr t ->
          m_TexturePool w' !! key = m_TexturePool w !! key)
    /\ heap w' = heap w
    /\ globals w' = globals w.
Proof.
  intros Hp. eexists. split; [apply CollectTempory_pool; eassumption |].
  simpl. split; [apply lookup_insert_eq |].
  split; [| split; reflexivity].
  intros key Hkey. apply lookup_insert_ne. congruence.
Qed.

(** ** GetTempory *)

Lemma GetTempory_reuse width height depth format type w top rest :
  m_TexturePool w !! GetKeyFromParams width height depth format type = Some (top :: rest) ->
  GetTempory width height depth format type w =
    Some (top, with_pool <[GetKeyFromParams width height depth format type := rest]> w).
Proof.
  intros Hs. unfold GetTempory. rewrite Hs. reflexivity.
Qed.

Lemma free_stack_nil w key :
  free_stack w key = [] <->
  m_TexturePool w !! key = None \/ m_TexturePool w !! key = Some [].
Proof.
  unfold free_stack. destruct (m_TexturePool w !! key) as [[| top rest] |]; simpl;
    split; intros Hs; auto; try discriminate.
  - destruct Hs; discriminate.
Qed.

Lemma GetTempory_create width height depth format type w :
  free_stack w (GetKeyFromParams width height depth format type) = [] ->
  GetTempory width height depth format type w =
    let key := GetKeyFromParams width height depth format type in
    let p := fresh (dom (heap w)) in
    let r := CreateEmpty width height depth format type default_mipMap (Texture_new key)
               (with_bufferManager (BufferManager_Add p) (globals w)) in
    Some (p, {| heap := <[p := r.1]> (heap w);
                m_TexturePool := m_TexturePool w;
                globals := with_bufferManager (BufferManager_Add p) r.2 |}).
Proof.
  intros Hs. apply free_stack_nil in Hs. unfold GetTempory.
  assert (Hgo : forall o, (o = None \/ o = Some []) ->
     match o with
     | Some (texture :: rest) =>
         Some (texture,
               with_pool <[GetKeyFromParams width height depth format type := rest]> w)
     | _ =>
         let '(texture, w0) := Create (GetKeyFromParams width height depth format type) w in
         w1 ← call texture
                (CreateEmpty width height depth format type default_mipMap) w0;
         Some (texture, Add texture w1)
     end =
     (let '(texture, w0) := Create (GetKeyFromParams width height depth format type) w in
      w1 ← call texture
             (CreateEmpty width height depth format type default_mipMap) w0;
      Some (texture, Add texture w1))).
  { intros o [-> | ->]; reflexivity. }
  rewrite (Hgo _ Hs). clear Hgo.
  unfold Create, call, Add. simpl. rewrite lookup_insert_eq. simpl.
  destruct (CreateEmpty _ _ _ _ _ _ _ _) as [t' g']. simpl.
  rewrite insert_insert_eq. reflexivity.
Qed.

Lemma fresh_address (w : World) : heap w !! fresh (dom (heap w)) = None.
Proof.
  apply not_elem_of_dom. apply is_fresh.
Qed.

(** C1 (amended). GetTempory with a non-empty free stack for the key pops
    that stack and returns its top; nothing else changes.  With no free
    entry for the key it makes a new texture object named by the key at an
    address not in use and registers it with the buffer manager; the pool
    is as before.  When the format is not UNKNOW the object gets a GL name
    and the requested shape, and the memory total grows by its footprint;
    when the format is UNKNOW no buffer is allocated, the object keeps the
    members it was constructed with, and the memory total is unchanged. *)
Theorem GetTempory_acquires width height depth format type w :
  let key := GetKeyFromParams width height depth format type in
  (forall top rest,
      m_TexturePool w !! key = Some (top :: rest) ->
      GetTempory width height depth format type w =
        Some (top, with_pool <[key := rest]> w))
  /\ (free_stack w key = [] ->
      exists p w' t,
        GetTempory width height depth format type w = Some (p, w')
        /\ heap w !! p = None
        /\ heap w' = <[p := t]> (heap w)
        /\ m_TexturePool w' = m_TexturePool w
        /\ registered w' p
        /\ m_Name t = key
        /\ (format <> UNKNOW ->
            m_ID t <> 0%N
            /\ m_ID t ∈ gl_live (gl (globals w'))
            /\ m_Width t = width /\ m_Height t = height /\ m_Depth t = depth
            /\ m_Format t = format /\ m_Type t = type
            /\ GetKeyFromPtr t = key
            /\ memory (globals w') = memory (globals w) + footprint t)
        /\ (format = UNKNOW ->
            t = set_Dirty true (Texture_new key)
            /\ memory (globals w') = memory (globals w)
            /\ gl (globals w') = gl (globals w))).
Proof.
  cbv zeta. split.
  { intros top rest Hs. apply GetTempory_reuse. assumption. }
  intros Hs. rewrite GetTempory_create by assumption. cbv zeta.
  set (key := GetKeyFromParams width height depth format type).
  set (p := fresh (dom (heap w))).
  set (g0 := with_bufferManager (BufferManager_Add p) (globals w)).
  eexists p, _, _. split; [reflexivity |].
  split; [apply fresh_address |].
  simpl. split; [reflexivity |].
  split; [reflexivity |].
  split.
  { unfold registered. simpl. set_solver. }
  destruct (decide (format = UNKNOW)) as [-> | Hf].
  - rewrite CreateEmpty_unknow.
    rewrite DeleteBuffer_unallocated by reflexivity. simpl.
    split; [reflexivity |]. split; [intros Hne; contradiction |].
    intros _. repeat split.
  - rewrite CreateEmpty_known by assumption.
    rewrite DeleteBuffer_unallocated by reflexivity. simpl.
    split; [reflexivity |]. split; [| intros Heq; contradiction].
    intros _. split; [lia |]. split; [apply list_elem_of_here |].
    repeat split.
Qed.

(** What GetTempory returns always owns an object. *)
Lemma GetTempory_shape width height depth format type w p w1 :
  let key := GetKeyFromParams width height depth format type in
  (free_stack w key = [] -> format <> UNKNOW) ->
  (forall top rest, m_TexturePool w !! key = Some (top :: rest) -> has_shape w key top) ->
  GetTempory width height depth format type w = Some (p, w1) ->
  has_shape w1 key p.
Proof.
  cbv zeta. intros Hnew Hold Hget.
  destruct (m_TexturePool w !! GetKeyFromParams width height depth format type)
    as [[| top rest] |] eqn:Hs.
  - assert (Hnil : free_stack w (GetKeyFromParams width height depth format type) = [])
      by (apply free_stack_nil; auto).
    rewrite GetTempory_create in Hget by assumption. cbv zeta in Hget.
    rewrite CreateEmpty_known in Hget by auto.
    injection Hget as <- <-. unfold has_shape. simpl.
    rewrite lookup_insert_eq. eexists. split; reflexivity.
  - rewrite (GetTempory_reuse _ _ _ _ _ _ _ _ Hs) in Hget.
    injection Hget as <- <-. apply (Hold top rest). reflexivity.
  - assert (Hnil : free_stack w (GetKeyFromParams width height depth format type) = [])
      by (apply free_stack_nil; auto).
    rewrite GetTempory_create in Hget by assumption. cbv zeta in Hget.
    rewrite CreateEmpty_known in Hget by auto.
    injection Hget as <- <-. unfold has_shape. simpl.
    rewrite lookup_insert_eq. eexists. split; reflexivity.
Qed.

Lemma GetTempory_total width height depth format type w :
  is_Some (GetTempory width height depth format type w).
Proof.
  destruct (m_TexturePool w !! GetKeyFromParams width height depth format type)
    as [[| top rest] |] eqn:Hs.
  - rewrite GetTempory_create by (apply free_stack_nil; auto). cbv zeta. eauto.
  - rewrite (GetTempory_reuse _ _ _ _ _ _ _ _ Hs). eauto.
  - rewrite GetTempory_create by (apply free_stack_nil; auto). cbv zeta. eauto.
Qed.

(** C4 (amended). Take a key and a pool state such that a request that
    finds no free entry has a format other than UNKNOW, and a free entry on
    top of the key's stack has the key's shape.  Then GetTempory,
    CollectTempory of what it returned and GetTempory again return the same
    address twice, and after the cycle the texture objects and the globals
    (the memory total among them) are what they were before the release;
    the key's free stack is too. *)
Theorem acquire_release_acquire width height depth format type w :
  let key := GetKeyFromParams width height depth format type in
  (free_stack w key = [] -> format <> UNKNOW) ->
  (forall top rest, m_TexturePool w !! key = Some (top :: rest) -> has_shape w key top) ->
  exists p w1 w2 w3,
    GetTempory width height depth format type w = Some (p, w1)
    /\ CollectTempory p w1 = Some w2
    /\ GetTempory width height depth format type w2 = Some (p, w3)
    /\ memory (globals w3) = memory (globals w1)
    /\ heap w3 = heap w1
    /\ globals w3 = globals w1
    /\ free_stack w3 key = free_stack w1 key.
Proof.
  cbv zeta. intros Hnew Hold.
  destruct (GetTempory_total width height depth format type w) as [[p w1] Hget].
  pose proof (GetTempory_shape _ _ _ _ _ _ _ _ Hnew Hold Hget) as (t & Hp & Hkey).
  exists p, w1. eexists. eexists.
  split; [exact Hget |].
  split; [apply (CollectTempory_pool _ _ _ Hp) |].
  rewrite Hkey.
  split.
  { apply GetTempory_reuse. simpl. apply lookup_insert_eq. }
  simpl. repeat split.
  unfold free_stack at 1. simpl. rewrite lookup_insert_eq. reflexivity.
Qed.

End Pool.

Section Release.
Context `{Engine}.

(** ** The bytes held by a heap *)

Lemma resident_sum_comm (j1 j2 : ptr) (z1 z2 : Texture) (y : Z) :
  resident z1 + (resident z2 + y) = resident z2 + (resident z1 + y).
Proof. lia. Qed.

Lemma total_resident_insert_new (h : gmap ptr Texture) p t :
  h !! p = None -> total_resident (<[p := t]> h) = resident t + total_resident h.
Proof.
  intros Hp. unfold total_resident.
  rewrite map_fold_insert_L; [reflexivity | | assumption].
  intros. apply resident_sum_comm; assumption.
Qed.

Lemma total_resident_delete (h : gmap ptr Texture) p t :
  h !! p = Some t -> total_resident h = resident t + total_resident (delete p h).
Proof.
  intros Hp. unfold total_resident.
  rewrite (map_fold_delete_L _ _ p t h); [reflexivity | | assumption].
  intros. apply resident_sum_comm; assumption.
Qed.

Lemma total_resident_update (h : gmap ptr Texture) p t t' :
  h !! p = Some t ->
  total_resident (<[p := t']> h) = total_resident h - resident t + resident t'.
Proof.
  intros Hp. rewrite <- insert_delete_eq.
  rewrite total_resident_insert_new by apply lookup_delete_eq.
  rewrite (total_resident_delete h p t Hp). lia.
Qed.

(** ** BufferManager::Release *)

Lemma BufferManager_Release_hit p t w :
  registered w p -> heap w !! p = Some t ->
  BufferManager_Release p w =
    {| heap := <[p := (DeleteBuffer t (globals w)).1]> (heap w);
       m_TexturePool := m_TexturePool w;
       globals := (DeleteBuffer t (globals w)).2 |}.
Proof.
  unfold registered, BufferManager_Release, call. intros Hreg Hp.
  rewrite decide_True by assumption. rewrite Hp. simpl.
  destruct (DeleteBuffer t (globals w)) as [t' g']. reflexivity.
Qed.

Lemma BufferManager_Release_miss p w :
  ~ registered w p \/ heap w !! p = None -> BufferManager_Release p w = w.
Proof.
  unfold registered, BufferManager_Release, call. intros [Hreg | Hp].
  - rewrite decide_False by assumption. reflexivity.
  - rewrite Hp. simpl. destruct (decide _); reflexivity.
Qed.

Lemma BufferManager_Release_cases p w :
  BufferManager_Release p w = w
  \/ exists t, registered w p /\ heap w !! p = Some t
       /\ BufferManager_Release p w =
            {| heap := <[p := (DeleteBuffer t (globals w)).1]> (heap w);
               m_TexturePool := m_TexturePool w;
               globals := (DeleteBuffer t (globals w)).2 |}.
Proof.
  destruct (decide (p ∈ m_Buffers (bufferManager (globals w)))) as [Hreg | Hreg].
  - destruct (heap w !! p) as [t |] eqn:Hp.
    + right. exists t. auto using BufferManager_Release_hit.
    + left. apply BufferManager_Release_miss. auto.
  - left. apply BufferManager_Release_miss. auto.
Qed.

Lemma BufferManager_Release_pool p w :
  m_TexturePool (BufferManager_Release p w) = m_TexturePool w.
Proof.
  destruct (BufferManager_Release_cases p w) as [-> | (t & _ & _ & ->)]; reflexivity.
Qed.

Lemma BufferManager_Release_registered p w q :
  registered (BufferManager_Release p w) q <-> registered w q.
Proof.
  destruct (BufferManager_Release_cases p w) as [-> | (t & _ & _ & ->)]; [reflexivity |].
  unfold registered. simpl. rewrite DeleteBuffer_buffers. reflexivity.
Qed.

Lemma BufferManager_Release_other p w q :
  q <> p -> heap (BufferManager_Release p w) !! q = heap w !! q.
Proof.
  intros Hq.
  destruct (BufferManager_Release_cases p w) as [-> | (t & _ & _ & ->)]; [reflexivity |].
  simpl. apply lookup_insert_ne. congruence.
Qed.

Lemma BufferManager_Release_balance p w :
  world_balance (BufferManager_Release p w) = world_balance w.
Proof.
  destruct (BufferManager_Release_cases p w) as [-> | (t & _ & Hp & ->)]; [reflexivity |].
  unfold world_balance. simpl.
  rewrite (total_resident_update _ _ _ _ Hp).
  rewrite DeleteBuffer_memory, DeleteBuffer_resident. lia.
Qed.

Lemma DeleteBuffer_released t g : released (DeleteBuffer t g).1.
Proof. split; [apply DeleteBuffer_ID | apply DeleteBuffer_Dirty]. Qed.

Lemma DeleteBuffer_again t g : released t -> DeleteBuffer t g = (t, g).
Proof.
  intros [Hid Hd]. rewrite DeleteBuffer_unallocated by assumption.
  rewrite <- Hd. rewrite set_Dirty_same. reflexivity.
Qed.

Lemma BufferManager_Release_keeps p w q t :
  heap w !! q = Some t -> released t ->
  heap (BufferManager_Release p w) !! q = Some t.
Proof.
  intros Hq Hrel. destruct (decide (q = p)) as [-> | Hne].
  - destruct (BufferManager_Release_cases p w) as [-> | (t0 & _ & Hp & ->)]; [assumption |].
    simpl. rewrite lookup_insert_eq. rewrite Hq in Hp. injection Hp as <-.
    rewrite DeleteBuffer_again by assumption. reflexivity.
  - rewrite BufferManager_Release_other by assumption. assumption.
Qed.

Lemma BufferManager_Release_gl_live p w n :
  n ∉ gl_live (gl (globals w)) ->
  n ∉ gl_live (gl (globals (BufferManager_Release p w))).
Proof.
  intros Hn.
  destruct (BufferManager_Release_cases p w) as [-> | (t & _ & _ & ->)]; [assumption |].
  simpl. DeleteBuffer_cases t (globals w).
  - assumption.
  - simpl. rewrite list_elem_of_filter. tauto.
Qed.

End Release.

Section ReleaseAll.
Context `{Engine}.

Lemma release_stack_foldl stack w : release_stack stack w = ([], release_all stack w).
Proof.
  revert w. induction stack as [| top rest IH]; intros w; simpl.
  - reflexivity.
  - apply IH.
Qed.

Lemma foldl_stacks (l : list (string * list ptr)) w :
  foldl (fun w (pair : string * list ptr) => (release_stack pair.2 w).2) w l =
  release_all (concat (map snd l)) w.
Proof.
  revert w. induction l as [| [key stack] l IH]; intros w; simpl.
  - reflexivity.
  - rewrite IH, release_stack_foldl. simpl.
    unfold release_all. rewrite foldl_app. reflexivity.
Qed.

Lemma ReleaseTempories_release_all w :
  ReleaseTempories w = release_all (pool_entries w) w.
Proof. unfold ReleaseTempories, pool_entries. apply foldl_stacks. Qed.

Lemma elem_of_concat (x : ptr) (ls : list (list ptr)) :
  x ∈ concat ls <-> exists l, x ∈ l /\ l ∈ ls.
Proof.
  induction ls as [| l0 ls IH]; simpl.
  - split; [intros Hx; apply elem_of_nil in Hx; contradiction |].
    intros (l & _ & Hl). apply elem_of_nil in Hl. contradiction.
  - rewrite elem_of_app, IH. split.
    + intros [Hx | (l & Hx & Hl)].
      * exists l0. split; [assumption | apply list_elem_of_here].
      * exists l. split; [assumption | apply list_elem_of_further; assumption].
    + intros (l & Hx & Hl). apply elem_of_cons in Hl as [-> | Hl]; eauto.
Qed.

Lemma elem_of_pool_entries w p : p ∈ pool_entries w <-> pooled w p.
Proof.
  unfold pool_entries, pooled. rewrite elem_of_concat. split.
  - intros (stack & Hp & Hstack).
    apply list_elem_of_fmap in Hstack as ([key stack'] & -> & Hin).
    apply elem_of_map_to_list in Hin. eauto.
  - intros (key & stack & Hs & Hp). exists stack. split; [assumption |].
    apply list_elem_of_fmap. exists (key, stack). split; [reflexivity |].
    apply elem_of_map_to_list. assumption.
Qed.

Lemma release_all_cons p ids w :
  release_all (p :: ids) w = release_all ids (BufferManager_Release p w).
Proof. reflexivity. Qed.

Lemma release_all_pool ids w : m_TexturePool (release_all ids w) = m_TexturePool w.
Proof.
  revert w. induction ids as [| p ids IH]; intros w; [reflexivity |].
  rewrite release_all_cons, IH. apply BufferManager_Release_pool.
Qed.

Lemma release_all_registered ids w q :
  registered (release_all ids w) q <-> registered w q.
Proof.
  revert w. induction ids as [| p ids IH]; intros w; [reflexivity |].
  rewrite release_all_cons, IH. apply BufferManager_Release_registered.
Qed.

Lemma release_all_other ids w q :
  q ∉ ids -> heap (release_all ids w) !! q = heap w !! q.
Proof.
  revert w. induction ids as [| p ids IH]; intros w Hq; [reflexivity |].
  apply not_elem_of_cons in Hq as [Hne Hq].
  rewrite release_all_cons, IH by assumption.
  apply BufferManager_Release_other. assumption.
Qed.

Lemma release_all_keeps ids w q t :
  heap w !! q = Some t -> released t -> heap (release_all ids w) !! q = Some t.
Proof.
  revert w. induction ids as [| p ids IH]; intros w Hq Hrel; [assumption |].
  rewrite release_all_cons. apply IH; [| assumption].
  apply BufferManager_Release_keeps; assumption.
Qed.

Lemma release_all_gl_live ids w n :
  n ∉ gl_live (gl (globals w)) -> n ∉ gl_live (gl (globals (release_all ids w))).
Proof.
  revert w. induction ids as [| p ids IH]; intros w Hn; [assumption |].
  rewrite release_all_cons. apply IH. apply BufferManager_Release_gl_live. assumption.
Qed.

Lemma release_all_balance ids w : world_balance (release_all ids w) = world_balance w.
Proof.
  revert w. induction ids as [| p ids IH]; intros w; [reflexivity |].
  rewrite release_all_cons, IH. apply BufferManager_Release_balance.
Qed.

Lemma release_all_releases ids w p t :
  p ∈ ids -> registered w p -> heap w !! p = Some t ->
  exists t', heap (release_all ids w) !! p = Some t' /\ released t'
    /\ (m_ID t <> 0%N -> m_ID t ∉ gl_live (gl (globals (release_all ids w)))).
Proof.
  revert w. induction ids as [| a ids IH]; intros w Hin Hreg Hp.
  - apply elem_of_nil in Hin. contradiction.
  - rewrite release_all_cons. destruct (decide (p = a)) as [-> | Hne].
    + rewrite (BufferManager_Release_hit a t w Hreg Hp).
      set (w1 := {| heap := _ |}).
      exists (DeleteBuffer t (globals w)).1.
      split; [| split].
      * apply release_all_keeps; [apply lookup_insert_eq | apply DeleteBuffer_released].
      * apply DeleteBuffer_released.
      * intros Hid. apply release_all_gl_live. unfold w1. simpl.
        rewrite DeleteBuffer_allocated by assumption. simpl.
        apply glDeleteTextures_gone.
    + apply elem_of_cons in Hin as [Heq | Hin]; [contradiction |].
      apply IH; [assumption | |].
      * apply BufferManager_Release_registered. assumption.
      * rewrite BufferManager_Release_other by assumption. assumption.
Qed.

(** The pool itself comes out of ReleaseTempories as it went in: the loop
    pops copies of the stacks. *)
Lemma ReleaseTempories_pool w : m_TexturePool (ReleaseTempories w) = m_TexturePool w.
Proof. rewrite ReleaseTempories_release_all. apply release_all_pool. Qed.

(** C2 (amended). ReleaseTempories passes every entry of every free stack
    to BufferManager::Release.  Each registered texture object found in a
    free stack ends without a GL name and dirty, the GL name it had is
    deleted; texture objects in no free stack (the checked-out ones) are
    not touched; and the memory total is not reset but lowered by exactly
    the bytes of the buffers destroyed: the total less the bytes held by
    all objects is the same before and after. *)
Theorem ReleaseTempories_releases_free w :
  let w' := ReleaseTempories w in
  (forall p t, pooled w p -> registered w p -> heap w !! p = Some t ->
     exists t', heap w' !! p = Some t' /\ m_ID t' = 0%N /\ m_Dirty t' = true
       /\ (m_ID t <> 0%N -> m_ID t ∉ gl_live (gl (globals w'))))
  /\ (forall p, ~ pooled w p -> heap w' !! p = heap w !! p)
  /\ memory (globals w') - total_resident (heap w')
     = memory (globals w) - total_resident (heap w).
Proof.
  cbv zeta. rewrite ReleaseTempories_release_all.
  split; [| split].
  - intros p t Hpool Hreg Hp. apply elem_of_pool_entries in Hpool.
    destruct (release_all_releases _ _ _ _ Hpool Hreg Hp) as (t' & Ht' & [Hid Hd] & Hgl).
    exists t'. auto.
  - intros p Hpool. apply release_all_other.
    rewrite elem_of_pool_entries. assumption.
  - apply release_all_balance.
Qed.

End ReleaseAll.

Section WorldAccounting.
Context `{Engine}.




Lemma call_balance p method w w' :
  (forall t g, balance (method t g) = balance (t, g)) ->
  call p method w = Some w' -> world_balance w' = world_balance w.
Proof.
  intros Hm. unfold call. destruct (heap w !! p) as [t |] eqn:Hp; simpl; [| discriminate].
  specialize (Hm t (globals w)). destruct (method t (globals w)) as [t' g'].
  intros [= <-]. unfold world_balance. simpl.
  rewrite (total_resident_update _ _ _ _ Hp).
  unfold balance in Hm. simpl in Hm. lia.
Qed.

Lemma GetTempory_create_balance width height depth format type w p w' :
  free_stack w (GetKeyFromParams width height depth format type) = [] ->
  GetTempory width height depth format type w = Some (p, w') ->
  world_balance w' = world_balance w.
Proof.
  intros Hnil. rewrite GetTempory_create by assumption. cbv zeta.
  intros [= <- <-]. unfold world_balance. simpl.
  rewrite total_resident_insert_new by apply fresh_address.
  set (key := GetKeyFromParams width height depth format type).
  set (g0 := with_bufferManager _ (globals w)).
  pose proof (balance_CreateEmpty width height depth format type default_mipMap
                (Texture_new key) g0) as Hb.
  rewrite (balance_unallocated (Texture_new key) g0) in Hb by reflexivity.
  unfold balance in Hb.
  destruct (CreateEmpty _ _ _ _ _ _ _ _) as [t' g'].
  unfold memory, g0 in *. simpl in *. lia.
Qed.

Lemma GetTempory_balance width height depth format type w p w' :
  GetTempory width height depth format type w = Some (p, w') ->
  world_balance w' = world_balance w.
Proof.
  destruct (m_TexturePool w !! GetKeyFromParams width height depth format type)
    as [[| top rest] |] eqn:Hs.
  - apply GetTempory_create_balance. apply free_stack_nil. auto.
  - rewrite (GetTempory_reuse _ _ _ _ _ _ _ _ Hs). intros [= <- <-]. reflexivity.
  - apply GetTempory_create_balance. apply free_stack_nil. auto.
Qed.

Lemma CollectTempory_frame p w w' :
  CollectTempory p w = Some w' -> heap w' = heap w /\ globals w' = globals w.
Proof.
  unfold CollectTempory. destruct (heap w !! p) as [t |]; simpl; [| discriminate].
  intros [= <-]. split; reflexivity.
Qed.

Lemma ReleaseTempories_balance w : world_balance (ReleaseTempories w) = world_balance w.
Proof.
  rewrite ReleaseTempories_release_all. apply release_all_balance.
Qed.


End WorldAccounting.

Section Keys.
Context `{Engine}.

(** ** Strings cut at the separator *)

Lemma has_star_app s1 s2 : has_star (s1 +:+ s2) = has_star s1 || has_star s2.
Proof.
  induction s1 as [| c s1 IH]; simpl.
  - reflexivity.
  - rewrite IH. apply orb_assoc.
Qed.

Lemma cut_at_star s1 s2 r1 r2 :
  has_star s1 = false -> has_star s2 = false ->
  s1 +:+ String "*" r1 = s2 +:+ String "*" r2 -> s1 = s2 /\ r1 = r2.
Proof.
  revert s2. induction s1 as [| c s1 IH]; intros [| c2 s2] Hs1 Hs2 Heq; simpl in *.
  - injection Heq as ->. split; reflexivity.
  - injection Heq as <- _. simpl in Hs2. discriminate.
  - injection Heq as -> _. simpl in Hs1. discriminate.
  - injection Heq as -> Heq.
    apply orb_false_iff in Hs1 as [_ Hs1]. apply orb_false_iff in Hs2 as [_ Hs2].
    destruct (IH s2 Hs1 Hs2 Heq) as [-> ->]. split; reflexivity.
Qed.

(** ** Decimal numerals have no separator *)

Lemma pretty_N_char_no_star x : Ascii.eqb (pretty_N_char x) "*"%char = false.
Proof.
  unfold pretty_N_char. repeat case_match; reflexivity.
Qed.

Lemma pretty_N_go_no_star x s : has_star s = false -> has_star (pretty_N_go x s) = false.
Proof.
  revert s. induction (N.lt_wf_0 x) as [x _ IH]. intros s Hs.
  assert (x = 0 \/ 0 < x)%N as [-> | Hpos] by lia.
  - rewrite pretty_N_go_0. assumption.
  - rewrite pretty_N_go_step by assumption. apply IH.
    + apply N.div_lt; [assumption | reflexivity].
    + simpl. rewrite pretty_N_char_no_star. assumption.
Qed.

Lemma pretty_N_no_star (x : N) : has_star (pretty x) = false.
Proof.
  unfold pretty, pretty_N. destruct (decide (x = 0%N)); [reflexivity |].
  apply pretty_N_go_no_star. reflexivity.
Qed.

Lemma pretty_Z_no_star (z : Z) : has_star (pretty z) = false.
Proof.
  destruct z as [| x | x]; unfold pretty, pretty_Z.
  - reflexivity.
  - apply pretty_N_no_star.
  - rewrite has_star_app. simpl. apply pretty_N_no_star.
Qed.

(** C8. Under [DistinctNames], two shapes get the same pool key exactly
    when they agree in width, height, depth, format and type; and the key
    of a texture object is the key of its current members. *)
Theorem GetKeyFromParams_injective `{!DistinctNames} :
  (forall width1 height1 depth1 format1 type1 width2 height2 depth2 format2 type2,
      GetKeyFromParams width1 height1 depth1 format1 type1
        = GetKeyFromParams width2 height2 depth2 format2 type2
      <-> width1 = width2 /\ height1 = height2 /\ depth1 = depth2
          /\ format1 = format2 /\ type1 = type2)
  /\ (forall t,
      GetKeyFromPtr t =
        GetKeyFromParams (m_Width t) (m_Height t) (m_Depth t) (m_Format t) (m_Type t)).
Proof.
  split; [| reflexivity].
  intros width1 height1 depth1 format1 type1 width2 height2 depth2 format2 type2.
  split.
  - unfold GetKeyFromParams. intros Hkey.
    apply cut_at_star in Hkey as [Hw Hkey]; [| apply pretty_Z_no_star ..].
    apply cut_at_star in Hkey as [Hh Hkey]; [| apply pretty_Z_no_star ..].
    apply cut_at_star in Hkey as [Hd Hkey]; [| apply pretty_Z_no_star ..].
    apply cut_at_star in Hkey as [Hf Hty];
      [| apply TextureFormatToString_no_star ..].
    apply (inj pretty) in Hw, Hh, Hd.
    apply TextureFormatToString_inj in Hf. apply TextureTypeToString_inj in Hty.
    auto.
  - intros (-> & -> & -> & -> & ->). reflexivity.
Qed.

End Keys.

Section Serialization.
Context `{Engine}.

(** ** The setters store their argument *)

Lemma SetFilterMode_eq mode t : SetFilterMode mode t = set_FilterMode mode t.
Proof.
  unfold SetFilterMode. destruct (decide (m_FilterMode t <> mode)) as [| Hsame];
    [reflexivity |].
  apply dec_stable in Hsame. subst mode. destruct t; reflexivity.
Qed.

Lemma SetWrapMode_eq mode t : SetWrapMode mode t = set_WrapMode mode t.
Proof.
  unfold SetWrapMode. destruct (decide (m_WrapMode t <> mode)) as [| Hsame];
    [reflexivity |].
  apply dec_stable in Hsame. subst mode. destruct t; reflexivity.
Qed.

Lemma SetBorderColor_eq color t : SetBorderColor color t = set_BorderColor color t.
Proof.
  unfold SetBorderColor. destruct (decide (m_BorderColor t <> color)) as [| Hsame];
    [reflexivity |].
  apply dec_stable in Hsame. subst color. destruct t; reflexivity.
Qed.

(** DeleteBuffer leaves the sampler members and the name alone. *)
Lemma DeleteBuffer_sampler t g :
  let t' := (DeleteBuffer t g).1 in
  m_Name t' = m_Name t /\ m_FilterMode t' = m_FilterMode t
  /\ m_WrapMode t' = m_WrapMode t /\ m_BorderColor t' = m_BorderColor t
  /\ m_Depth t' = m_Depth t /\ m_Type t' = m_Type t /\ m_Mipmap t' = m_Mipmap t.
Proof.
  cbv zeta. DeleteBuffer_cases t g; simpl; repeat split.
Qed.

(** C7. Load answers false exactly when it is asked for an object and the
    node is none, or Entity::Load fails, or no "path" can be loaded and one
    of "format", "width" and "height" cannot; in every other case it
    answers true. *)
Theorem Load_fails_exactly wrapper object t g :
  let failure :=
    (object = true /\ IsObject wrapper = false)
    \/ (Entity_Load wrapper false t).1 = false
    \/ (LoadMemberValue_string wrapper "path" = None
        /\ (LoadMemberValue_string wrapper "format" = None
            \/ LoadMemberValue_int wrapper "width" = None
            \/ LoadMemberValue_int wrapper "height" = None)) in
  ((Load wrapper object t g).1.1 = false <-> failure)
  /\ ((Load wrapper object t g).1.1 = true <-> ~ failure).
Proof.
  cbv zeta.
  assert (Hfalse : (Load wrapper object t g).1.1 = false <->
    (object = true /\ IsObject wrapper = false)
    \/ (Entity_Load wrapper false t).1 = false
    \/ (LoadMemberValue_string wrapper "path" = None
        /\ (LoadMemberValue_string wrapper "format" = None
            \/ LoadMemberValue_int wrapper "width" = None
            \/ LoadMemberValue_int wrapper "height" = None))).
  { unfold Load.
    destruct object, (IsObject wrapper); simpl;
      destruct (Entity_Load wrapper false t) as [[|] t1]; simpl;
      destruct (LoadMemberValue_string wrapper "path") as [path |];
      try destruct (CreateFromImage _ _ _ _ _) as [t2 g2];
      destruct (LoadMemberValue_string wrapper "format") as [format |];
      destruct (LoadMemberValue_int wrapper "width") as [width |];
      destruct (LoadMemberValue_int wrapper "height") as [height |];
      try destruct (CreateEmpty _ _ _ _ _ _ _ _) as [t3 g3];
      simpl; intuition congruence. }
  split; [exact Hfalse |].
  rewrite <- Hfalse. destruct ((Load wrapper object t g).1.1); split; congruence.
Qed.

(** The document Save writes for a texture without a file path. *)
Lemma Save_document t :
  m_FilePath t = "" ->
  document (Save true t []) =
    Some (JObject
      [("name", JString (m_Name t));
       ("format", JString (TextureFormatToString (m_Format t)));
       ("type", JString (TextureTypeToString (m_Type t)));
       ("width", JInt (m_Width t));
       ("height", JInt (m_Height t));
       ("depth", JInt (m_Depth t));
       ("borderColor", JColor (m_BorderColor t));
       ("mipmap", JBool (m_Mipmap t));
       ("filter", JString (FilterModeToString (m_FilterMode t)));
       ("wrap", JString (WrapModeToString (m_WrapMode t)))]).
Proof.
  intros Hpath. unfold Save. rewrite bool_decide_eq_true_2 by assumption.
  reflexivity.
Qed.

(** C6 (amended). A texture without a file path whose format is not
    UNKNOW is saved as a document that Load accepts, into any texture
    object, and the loaded object has the saved name, format, type, width,
    height, depth, border color, mipmap flag, filter mode and wrap mode. *)
Theorem Save_Load_round_trip `{!NamesReadBack} t :
  m_FilePath t = "" -> m_Format t <> UNKNOW ->
  exists doc,
    document (Save true t []) = Some doc
    /\ forall t0 g,
        let r := Load doc true t0 g in
        r.1.1 = true
        /\ m_Name r.1.2 = m_Name t
        /\ m_Format r.1.2 = m_Format t /\ m_Type r.1.2 = m_Type t
        /\ m_Width r.1.2 = m_Width t /\ m_Height r.1.2 = m_Height t
        /\ m_Depth r.1.2 = m_Depth t
        /\ m_BorderColor r.1.2 = m_BorderColor t
        /\ m_Mipmap r.1.2 = m_Mipmap t
        /\ m_FilterMode r.1.2 = m_FilterMode t
        /\ m_WrapMode r.1.2 = m_WrapMode t.
Proof.
  intros Hpath Hformat. eexists. split; [apply Save_document; assumption |].
  intros t0 g. cbv zeta. unfold Load. simpl.
  rewrite TextureFormat_read_back, TextureType_read_back,
    FilterMode_read_back, WrapMode_read_back.
  rewrite SetBorderColor_eq, SetFilterMode_eq, SetWrapMode_eq.
  rewrite CreateEmpty_known by assumption. cbv zeta.
  match goal with
  | |- context [DeleteBuffer ?t1 g] =>
      pose proof (DeleteBuffer_sampler t1 g) as (Hn & Hfm & Hwm & Hbc & _)
  end.
  simpl in *. repeat split; assumption.
Qed.

(** With the format UNKNOW the saved shape is read and dropped: depth, type
    and mipmap flag of the loaded object are the target's own. *)
Lemma Load_UNKNOW_keeps_target `{!NamesReadBack} t doc t0 g :
  m_FilePath t = "" -> m_Format t = UNKNOW ->
  document (Save true t []) = Some doc ->
  let r := Load doc true t0 g in
  r.1.1 = true
  /\ m_Depth r.1.2 = m_Depth t0 /\ m_Type r.1.2 = m_Type t0
  /\ m_Mipmap r.1.2 = m_Mipmap t0 /\ m_ID r.1.2 = 0%N.
Proof.
  intros Hpath Hformat Hdoc. rewrite Save_document in Hdoc by assumption.
  injection Hdoc as <-. cbv zeta. unfold Load. simpl.
  rewrite TextureFormat_read_back, Hformat, CreateEmpty_unknow.
  rewrite SetBorderColor_eq, SetFilterMode_eq, SetWrapMode_eq.
  match goal with
  | |- context [DeleteBuffer ?t1 g] =>
      pose proof (DeleteBuffer_sampler t1 g) as (_ & _ & _ & _ & Hd & Hty & Hm);
      pose proof (DeleteBuffer_ID t1 g) as Hid;
      destruct (DeleteBuffer t1 g) as [t2 g2]
  end.
  simpl in *. auto.
Qed.

End Serialization.

(** * The model at work on the concrete configuration *)

Section Runs.
Import Sample.

Lemma sample_DistinctNames : DistinctNames.
Proof.
  split.
  - intros [] []; simpl; intros Heq; (reflexivity || discriminate Heq).
  - intros [] []; simpl; intros Heq; (reflexivity || discriminate Heq).
  - intros []; reflexivity.
Qed.

Lemma sample_NamesReadBack : NamesReadBack.
Proof.
  split; intros []; reflexivity.
Qed.

#[local] Existing Instance sample_DistinctNames.
#[local] Existing Instance sample_NamesReadBack.

(** C1, counterexample. A request with format UNKNOW on the empty pool
    returns an object without a GL name; its members are those of a new
    texture, so its key is not the key requested. *)
Lemma GetTempory_UNKNOW_allocates_nothing :
  ('(p, w) ← GetTempory 4 4 0 UNKNOW TEXTURE_2D world0;
   t ← heap w !! p;
   Some (m_ID t, GetKeyFromPtr t, memory (globals w), gl_live (gl (globals w))))
  = Some (0%N, "0*0*0*unknow*2d", 0, [])
  /\ GetKeyFromParams 4 4 0 UNKNOW TEXTURE_2D = "4*4*0*unknow*2d".
Proof. split; vm_compute; reflexivity. Qed.

(** C2, counterexample. Two 4x4 RGBA8 textures are acquired and the first
    is returned to the pool.  After ReleaseTempories the second one, still
    checked out, keeps its GL name, the memory total is the 64 bytes it
    holds and not zero, and the free stack still has its entry. *)
Lemma ReleaseTempories_leaves_checked_out :
  ('(p1, w) ← GetTempory 4 4 0 RGBA8 TEXTURE_2D world0;
   '(p2, w) ← GetTempory 4 4 0 RGBA8 TEXTURE_2D w;
   w ← CollectTempory p1 w;
   let w := ReleaseTempories w in
   Some (m_ID <$> heap w !! p1, m_ID <$> heap w !! p2, memory (globals w),
         m_TexturePool w !! "4*4*0*rgba8*2d"))
  = Some (Some 0%N, Some 2%N, 64, Some [1%positive]).
Proof. vm_compute. reflexivity. Qed.


(** C4, counterexample. With format UNKNOW the object acquired from an
    empty pool is filed under the key of its own members, and the second
    request makes another object.  And an entry that ReleaseTempories left
    in the pool has lost its shape: it is handed out once, filed under
    another key, and the second request allocates a new buffer, so the
    memory total after the cycle is not the one before the release. *)
Lemma acquire_release_acquire_differs :
  ('(p1, w) ← GetTempory 4 4 0 UNKNOW TEXTURE_2D world0;
   w ← CollectTempory p1 w;
   '(p2, w) ← GetTempory 4 4 0 UNKNOW TEXTURE_2D w;
   Some (p1, p2)) = Some (1%positive, 2%positive)
  /\ ('(p0, w) ← GetTempory 4 4 0 RGBA8 TEXTURE_2D world0;
      w ← CollectTempory p0 w;
      '(p1, w1) ← GetTempory 4 4 0 RGBA8 TEXTURE_2D (ReleaseTempories w);
      w2 ← CollectTempory p1 w1;
      '(p2, w3) ← GetTempory 4 4 0 RGBA8 TEXTURE_2D w2;
      Some (p1, p2, memory (globals w1), memory (globals w3)))
     = Some (1%positive, 2%positive, 0, 64).
Proof. split; vm_compute; reflexivity. Qed.

(** C6, counterexample. A 4x4 array texture of depth 3 with mipmaps whose
    buffer was deleted has format UNKNOW and no file path.  Its saved
    document loads into a new texture with success, but the loaded texture
    has depth 0, type TEXTURE_2D and no mipmaps. *)
Lemma Save_Load_loses_shape :
  let r0 := CreateEmpty 4 4 3 RGBA8 TEXTURE_2D_ARRAY true (Texture_new "t") globals0 in
  let t := (DeleteBuffer r0.1 r0.2).1 in
  (m_FilePath t, m_Format t, m_Depth t, m_Type t, m_Mipmap t)
    = ("", UNKNOW, 3, TEXTURE_2D_ARRAY, true)
  /\ (doc ← document (Save true t []);
      let r := Load doc true (Texture_new "copy") globals0 in
      Some (r.1.1, m_Format r.1.2, m_Depth r.1.2, m_Type r.1.2, m_Mipmap r.1.2))
     = Some (true, UNKNOW, 0, TEXTURE_2D, false).
Proof. split; vm_compute; reflexivity. Qed.

(** C9, counterexample. A texture whose buffer was created and deleted is
    dirty and owns no GL name, so UpdateBuffer does not skip it; yet after
    UpdateBuffer it is still dirty and no buffer exists. *)
Lemma UpdateBuffer_after_DeleteBuffer :
  let r0 := CreateEmpty 4 4 0 RGBA8 TEXTURE_2D false (Texture_new "t") globals0 in
  let r1 := DeleteBuffer r0.1 r0.2 in
  let r2 := UpdateBuffer r1.1 r1.2 in
  (m_ID r1.1, m_Dirty r1.1, m_FilePath r1.1) = (0%N, true, "")
  /\ (m_Dirty r2.1, m_ID r2.1, gl_live (gl r2.2), memory r2.2) = (true, 0%N, [], 0).
Proof. split; vm_compute; reflexivity. Qed.

(** ** The theorems applied *)

Lemma world1_texture : heap world1 !! 1%positive = Some texture1.
Proof. vm_compute. reflexivity. Qed.

Lemma world2_texture : heap world2 !! 1%positive = Some texture1.
Proof. vm_compute. reflexivity. Qed.

Lemma world2_pool : m_TexturePool world2 !! key1 = Some [1%positive].
Proof. vm_compute. reflexivity. Qed.

Lemma world2_registered : registered world2 1%positive.
Proof.
  unfold registered.
  apply (bool_decide_unpack (1%positive ∈ m_Buffers (bufferManager (globals world2)))).
  vm_compute. exact I.
Qed.

(** C1, witness: a 4x4 RGBA8 request on the empty pool allocates 64
    bytes. *)
Lemma GetTempory_acquires_witness :
  free_stack world0 key1 = []
  /\ exists p w' t,
      GetTempory 4 4 0 RGBA8 TEXTURE_2D world0 = Some (p, w')
      /\ heap w' = <[p := t]> (heap world0)
      /\ m_ID t <> 0%N
      /\ GetKeyFromPtr t = key1
      /\ memory (globals w') = memory (globals world0) + footprint t.
Proof.
  split; [reflexivity |].
  destruct (proj2 (GetTempory_acquires 4 4 0 RGBA8 TEXTURE_2D world0) eq_refl)
    as (p & w' & t & Hget & _ & Hheap & _ & _ & _ & Hknown & _).
  assert (Hf : RGBA8 <> UNKNOW) by discriminate.
  destruct (Hknown Hf) as (Hid & _ & _ & _ & _ & _ & _ & Hkey & Hmem).
  exists p, w', t. auto.
Defined.

(** C2, witness: the pooled texture of [world2] loses its buffer. *)
Lemma ReleaseTempories_releases_free_witness :
  pooled world2 1%positive /\ registered world2 1%positive
  /\ exists t', heap (ReleaseTempories world2) !! 1%positive = Some t'
       /\ m_ID t' = 0%N /\ m_Dirty t' = true.
Proof.
  assert (Hpooled : pooled world2 1%positive).
  { exists key1, [1%positive]. split; [apply world2_pool | apply list_elem_of_here]. }
  split; [exact Hpooled |]. split; [apply world2_registered |].
  destruct (proj1 (ReleaseTempories_releases_free world2) 1%positive texture1
              Hpooled world2_registered world2_texture) as (t' & Ht' & Hid & Hd & _).
  exists t'. auto.
Defined.


(** C4, witness: the cycle on [world2], whose pool holds a 4x4 RGBA8
    texture under its key. *)
Lemma acquire_release_acquire_witness :
  has_shape world2 key1 1%positive
  /\ exists p w1 w2 w3,
      GetTempory 4 4 0 RGBA8 TEXTURE_2D world2 = Some (p, w1)
      /\ CollectTempory p w1 = Some w2
      /\ GetTempory 4 4 0 RGBA8 TEXTURE_2D w2 = Some (p, w3)
      /\ memory (globals w3) = memory (globals w1)
      /\ heap w3 = heap w1
      /\ globals w3 = globals w1
      /\ free_stack w3 key1 = free_stack w1 key1.
Proof.
  assert (Hshape : has_shape world2 key1 1%positive).
  { exists texture1. split; [apply world2_texture | reflexivity]. }
  split; [exact Hshape |].
  apply (acquire_release_acquire 4 4 0 RGBA8 TEXTURE_2D world2).
  - intros Hnil. discriminate.
  - intros top rest Hs.
    assert (Heq : Some (top :: rest) = Some [1%positive]).
    { rewrite <- Hs. exact world2_pool. }
    injection Heq as -> _. exact Hshape.
Defined.

(** C5, witness: returning the texture of [world1] to the pool. *)
Lemma CollectTempory_pushes_witness :
  heap world1 !! 1%positive = Some texture1
  /\ exists w',
      CollectTempory 1%positive world1 = Some w'
      /\ m_TexturePool w' !! GetKeyFromPtr texture1
         = Some (1%positive :: free_stack world1 (GetKeyFromPtr texture1))
      /\ (forall key, key <> GetKeyFromPtr texture1 ->
            m_TexturePool w' !! key = m_TexturePool world1 !! key)
      /\ heap w' = heap world1
      /\ globals w' = globals world1.
Proof.
  split; [apply world1_texture |].
  apply (CollectTempory_pushes 1%positive texture1 world1 world1_texture).
Defined.

(** C6, witness: the 4x4 RGBA8 texture saved and loaded into a new one. *)
Lemma Save_Load_round_trip_witness :
  m_FilePath texture1 = "" /\ m_Format texture1 <> UNKNOW
  /\ exists doc,
      document (Save true texture1 []) = Some doc
      /\ let r := Load doc true (Texture_new "copy") globals0 in
         r.1.1 = true
         /\ m_Format r.1.2 = RGBA8 /\ m_Type r.1.2 = TEXTURE_2D
         /\ m_Width r.1.2 = 4 /\ m_Height r.1.2 = 4 /\ m_Depth r.1.2 = 0.
Proof.
  assert (Hpath : m_FilePath texture1 = "") by reflexivity.
  assert (Hformat : m_Format texture1 <> UNKNOW) by discriminate.
  split; [exact Hpath |]. split; [exact Hformat |].
  destruct (Save_Load_round_trip texture1 Hpath Hformat) as (doc & Hdoc & Hload).
  exists doc. split; [exact Hdoc |].
  destruct (Hload (Texture_new "copy") globals0)
    as (Hok & _ & Hf & Hty & Hw & Hh & Hd & _).
  cbv zeta.
  split; [exact Hok |]. split; [exact Hf |]. split; [exact Hty |].
  split; [exact Hw |]. split; [exact Hh | exact Hd].
Defined.

(** C8, witness: a 2D texture and an array texture of the same size and
    format have different keys. *)
Lemma GetKeyFromParams_injective_witness :
  GetKeyFromParams 4 4 0 RGBA8 TEXTURE_2D = GetKeyFromParams 4 4 0 RGBA8 TEXTURE_2D_ARRAY
  <-> 4 = 4 /\ 4 = 4 /\ 0 = 0 /\ RGBA8 = RGBA8 /\ TEXTURE_2D = TEXTURE_2D_ARRAY.
Proof.
  apply (proj1 GetKeyFromParams_injective 4 4 0 RGBA8 TEXTURE_2D 4 4 0 RGBA8
           TEXTURE_2D_ARRAY).
Defined.

(** C9, witness: UpdateBuffer allocates the declared texture. *)
Lemma UpdateBuffer_lazy_witness :
  m_ID declared = 0%N /\ m_Dirty declared = true /\ m_FilePath declared = ""
  /\ m_Format declared <> UNKNOW
  /\ let r := UpdateBuffer declared globals0 in
     m_Dirty r.1 = false /\ m_ID r.1 <> 0%N /\ memory r.2 = memory globals0 + footprint declared.
Proof.
  assert (Hf : m_Format declared <> UNKNOW) by discriminate.
  repeat (split; [reflexivity || exact Hf |]).
  destruct (UpdateBuffer_lazy declared globals0) as (_ & _ & _ & Hrun & _).
  destruct (Hrun eq_refl eq_refl eq_refl Hf) as (Hd & Hid & _ & _ & _ & _ & _ & _ & _ & Hm).
  cbv zeta. auto.
Defined.

(** C10, witness: CreateEmpty with UNKNOW on the allocated texture. *)
Lemma CreateEmpty_UNKNOW_only_deletes_witness :
  m_ID texture1 <> 0%N
  /\ let r := CreateEmpty 8 8 0 UNKNOW TEXTURE_2D false texture1 (globals world1) in
     m_ID r.1 = 0%N /\ m_Dirty r.1 = true
     /\ memory r.2 = memory (globals world1) - footprint texture1
     /\ m_Width r.1 = 0 /\ m_Height r.1 = 0.
Proof.
  assert (Hid : m_ID texture1 <> 0%N) by discriminate.
  split; [exact Hid |].
  destruct (CreateEmpty_UNKNOW_only_deletes 8 8 0 TEXTURE_2D false texture1 (globals world1))
    as (_ & Hz & Hd & _ & Hdel & _).
  destruct (Hdel Hid) as (Hm & Hw & Hh & _).
  cbv zeta. auto.
Defined.

End Runs.

(** * Further properties of Texture.cpp *)

Section Footprint.
Context `{Engine}.

Lemma wrap_uint_range z : 0 <= wrap_uint z < 2 ^ 32.
Proof. unfold wrap_uint. apply Z.mod_pos_bound. lia. Qed.

Lemma int_mul_0_r a : int_mul a 0 = 0.
Proof. unfold int_mul. rewrite Z.mul_0_r. reflexivity. Qed.

(** X12. Whatever the members hold, negative sizes and overflowing
    products included, the byte count handed to the buffer manager lies
    between 0 and 2^29 - 1, and it is 0 when the width or the height is
    0. *)
Theorem texture_bytes_bounds width height depth format :
  0 <= texture_bytes width height depth format < 2 ^ 29
  /\ texture_bytes 0 height depth format = 0
  /\ texture_bytes width 0 depth format = 0.
Proof.
  unfold texture_bytes, uint_mul. split; [| split].
  - match goal with
    | |- 0 <= wrap_uint ?x / 8 < _ => pose proof (wrap_uint_range x) as Hr
    end.
    split.
    + apply Z.div_pos; lia.
    + apply Z.div_lt_upper_bound; lia.
  - reflexivity.
  - rewrite int_mul_0_r. reflexivity.
Qed.

Lemma texture_bytes_nonneg width height depth format :
  0 <= texture_bytes width height depth format.
Proof.
  unfold texture_bytes, uint_mul.
  match goal with
  | |- 0 <= wrap_uint ?x / 8 => pose proof (wrap_uint_range x) as Hr
  end.
  apply Z.div_pos; lia.
Qed.

End Footprint.

Section BufferCoverage.
Context `{Engine}.

(** X2. DeleteBuffer a second time changes nothing: the texture, the
    memory total and the GL names are as the first call left them. *)
Theorem DeleteBuffer_idempotent t g :
  DeleteBuffer (DeleteBuffer t g).1 (DeleteBuffer t g).2 = DeleteBuffer t g.
Proof.
  rewrite (DeleteBuffer_again _ _ (DeleteBuffer_released t g)).
  destruct (DeleteBuffer t g); reflexivity.
Qed.

(** ** CreateFromImage *)

(** CreateFromImage when the loader fails. *)
Lemma CreateFromImage_failed filePath srgb mipMap t g width height channels :
  LoadImage filePath (m_Width (DeleteBuffer t g).1) (m_Height (DeleteBuffer t g).1)
    = (false, (width, height), channels) ->
  CreateFromImage filePath srgb mipMap t g =
    (set_Height height (set_Width width (DeleteBuffer t g).1), (DeleteBuffer t g).2).
Proof.
  intros Hload. unfold CreateFromImage.
  destruct (DeleteBuffer t g) as [t1 g1]. simpl in *. rewrite Hload. reflexivity.
Qed.

(** CreateFromImage when the image has neither 3 nor 4 channels. *)
Lemma CreateFromImage_unsupported filePath srgb mipMap t g width height channels :
  LoadImage filePath (m_Width (DeleteBuffer t g).1) (m_Height (DeleteBuffer t g).1)
    = (true, (width, height), channels) ->
  channels <> 3 -> channels <> 4 ->
  CreateFromImage filePath srgb mipMap t g =
    (set_Format UNKNOW (set_Height height (set_Width width (DeleteBuffer t g).1)),
     (DeleteBuffer t g).2).
Proof.
  intros Hload H3 H4. unfold CreateFromImage.
  destruct (DeleteBuffer t g) as [t1 g1]. simpl in *. rewrite Hload.
  rewrite decide_False by assumption. rewrite decide_False by assumption.
  reflexivity.
Qed.

(** CreateFromImage when the image has 3 or 4 channels. *)
Lemma CreateFromImage_loaded filePath srgb mipMap t g width height channels :
  LoadImage filePath (m_Width (DeleteBuffer t g).1) (m_Height (DeleteBuffer t g).1)
    = (true, (width, height), channels) ->
  channels = 3 \/ channels = 4 ->
  CreateFromImage filePath srgb mipMap t g =
    let t1 := (DeleteBuffer t g).1 in
    let g1 := (DeleteBuffer t g).2 in
    (mkTexture (m_Name t1) false (image_format srgb channels) (m_Type t1) (m_TypeUint t1)
       (m_FilterMode t1) (m_WrapMode t1) (m_BorderColor t1) mipMap
       width height 0 (N.succ (gl_last (gl g1))) filePath,
     {| bufferManager :=
          BufferManager_IncreaseMemory
            (texture_bytes width height 0 (image_format srgb channels))
            (bufferManager g1);
        gl := (glGenTextures (gl g1)).2 |}).
Proof.
  intros Hload Hch. unfold CreateFromImage, image_format.
  destruct (DeleteBuffer t g) as [t1 g1]. simpl in *. rewrite Hload.
  destruct Hch as [-> | ->].
  - rewrite decide_True by reflexivity. reflexivity.
  - rewrite decide_False by discriminate. rewrite decide_True by reflexivity.
    reflexivity.
Qed.

End BufferCoverage.

Section ImageCoverage.
Context `{Engine}.

(** X1. CreateFromImage destroys the buffer the texture had, then asks the
    loader; width and height end as the loader left them in every case.
    When the loader succeeds with 3 or 4 channels the texture gets a GL
    name, is clean, has depth 0, the given mipmap flag and file path and
    the format chosen by the channel count and the srgb flag, and the
    memory total is what it was, less the old buffer, plus the new
    footprint.  When the loader fails or reports another channel count the
    texture ends without a buffer, dirty, no GL name is generated and the
    memory total is only lowered by the old buffer; with an unsupported
    channel count the format is UNKNOW. *)
Theorem CreateFromImage_outcome filePath srgb mipMap t g :
  let t1 := (DeleteBuffer t g).1 in
  let image := LoadImage filePath (m_Width t1) (m_Height t1) in
  let ok := image.1.1 in
  let channels := image.2 in
  let r := CreateFromImage filePath srgb mipMap t g in
  m_Width r.1 = image.1.2.1
  /\ m_Height r.1 = image.1.2.2
  /\ (ok = true -> channels = 3 \/ channels = 4 ->
      m_ID r.1 <> 0%N
      /\ m_ID r.1 ∈ gl_live (gl r.2)
      /\ m_Dirty r.1 = false
      /\ m_Depth r.1 = 0
      /\ m_Mipmap r.1 = mipMap
      /\ m_FilePath r.1 = filePath
      /\ m_Format r.1 = image_format srgb channels
      /\ memory r.2 = memory g - resident t + footprint r.1)
  /\ (ok = false \/ (channels <> 3 /\ channels <> 4) ->
      m_ID r.1 = 0%N
      /\ m_Dirty r.1 = true
      /\ gl_last (gl r.2) = gl_last (gl g)
      /\ memory r.2 = memory g - resident t
      /\ (ok = true -> m_Format r.1 = UNKNOW)).
Proof.
  cbv zeta.
  destruct (LoadImage filePath (m_Width (DeleteBuffer t g).1)
              (m_Height (DeleteBuffer t g).1)) as [[ok [width height]] channels] eqn:Hload.
  simpl.
  pose proof (DeleteBuffer_ID t g) as Hid.
  pose proof (DeleteBuffer_Dirty t g) as Hdirty.
  pose proof (DeleteBuffer_gl_last t g) as Hgl.
  pose proof (DeleteBuffer_memory t g) as Hmem.
  destruct ok.
  - destruct (decide (channels = 3 \/ channels = 4)) as [Hch | Hch].
    + rewrite (CreateFromImage_loaded _ _ _ _ _ _ _ _ Hload Hch). cbv zeta. simpl.
      split; [reflexivity |]. split; [reflexivity |]. split.
      * intros _ _. split; [lia |]. split; [apply list_elem_of_here |].
        repeat (split; [reflexivity |]).
        unfold memory in *. simpl. unfold footprint. simpl. lia.
      * intros [Hok | [H3 H4]]; [discriminate | tauto].
    + assert (H3 : channels <> 3) by tauto. assert (H4 : channels <> 4) by tauto.
      rewrite (CreateFromImage_unsupported _ _ _ _ _ _ _ _ Hload H3 H4). simpl.
      split; [reflexivity |]. split; [reflexivity |]. split.
      * intros _ Hyes. contradiction.
      * intros _. auto.
  - rewrite (CreateFromImage_failed _ _ _ _ _ _ _ _ Hload). simpl.
    split; [reflexivity |]. split; [reflexivity |]. split.
    + intros Hok. discriminate.
    + intros _. repeat (split; [assumption |]). intros Hok. discriminate.
Qed.

Lemma IsSRGB_image_format `{!LinearFormats} srgb channels t :
  m_Format t = image_format srgb channels -> IsSRGB t = srgb.
Proof.
  destruct RGB8_linear as (Ha & Hb & Hc & Hd).
  destruct RGBA8_linear as (He & Hf & Hg & Hh).
  unfold IsSRGB, image_format. intros ->.
  destruct (decide (channels = 3)), srgb.
  - rewrite (bool_decide_eq_true_2 (SRGB8 = SRGB8)) by reflexivity.
    destruct (bool_decide (SRGB8 = SRGB)); simpl; reflexivity.
  - rewrite !bool_decide_eq_false_2 by assumption. reflexivity.
  - rewrite (bool_decide_eq_true_2 (SRGB8_ALPHA8 = SRGB8_ALPHA8)) by reflexivity.
    destruct (bool_decide (SRGB8_ALPHA8 = SRGB)), (bool_decide (SRGB8_ALPHA8 = SRGB8));
      simpl; reflexivity.
  - rewrite !bool_decide_eq_false_2 by assumption. reflexivity.
Qed.

(** X8. Under [LinearFormats], a texture that CreateFromImage gave a
    buffer answers IsSRGB with the srgb flag it was created with: Save
    stores the flag the image was loaded with. *)
Theorem CreateFromImage_IsSRGB `{!LinearFormats} filePath srgb mipMap t g :
  let r := CreateFromImage filePath srgb mipMap t g in
  m_ID r.1 <> 0%N -> IsSRGB r.1 = srgb.
Proof.
  cbv zeta.
  destruct (LoadImage filePath (m_Width (DeleteBuffer t g).1)
              (m_Height (DeleteBuffer t g).1)) as [[ok [width height]] channels] eqn:Hload.
  pose proof (DeleteBuffer_ID t g) as Hid.
  destruct ok.
  - destruct (decide (channels = 3 \/ channels = 4)) as [Hch | Hch].
    + rewrite (CreateFromImage_loaded _ _ _ _ _ _ _ _ Hload Hch). cbv zeta. simpl.
      intros _. apply (IsSRGB_image_format srgb channels). reflexivity.
    + assert (H3 : channels <> 3) by tauto. assert (H4 : channels <> 4) by tauto.
      rewrite (CreateFromImage_unsupported _ _ _ _ _ _ _ _ Hload H3 H4). simpl.
      intros Hne. contradiction.
  - rewrite (CreateFromImage_failed _ _ _ _ _ _ _ _ Hload). simpl.
    intros Hne. contradiction.
Qed.

End ImageCoverage.

Section LifeCycleInvariant.
Context `{Engine}.
Variable Q : TextureFormat -> Prop.
Hypothesis Q_UNKNOW : Q UNKNOW.

Lemma without_buffer_DeleteBuffer t g :
  without_buffer Q t -> without_buffer Q (DeleteBuffer t g).1.
Proof.
  intros Ht. DeleteBuffer_cases t g.
  - intros _. apply Ht. assumption.
  - intros _. simpl. auto.
Qed.

Lemma without_buffer_CreateEmpty width height depth format type mipMap t g :
  without_buffer Q t ->
  without_buffer Q (CreateEmpty width height depth format type mipMap t g).1.
Proof.
  intros Ht. destruct (decide (format = UNKNOW)) as [-> | Hf].
  - rewrite CreateEmpty_unknow. apply without_buffer_DeleteBuffer. assumption.
  - rewrite CreateEmpty_known by assumption. cbv zeta. intros Hid. simpl in Hid. lia.
Qed.

Lemma without_buffer_CreateFromImage filePath srgb mipMap t g :
  without_buffer Q t ->
  without_buffer Q (CreateFromImage filePath srgb mipMap t g).1.
Proof.
  intros Ht. pose proof (without_buffer_DeleteBuffer t g Ht) as Ht1.
  destruct (LoadImage filePath (m_Width (DeleteBuffer t g).1)
              (m_Height (DeleteBuffer t g).1)) as [[ok [width height]] channels] eqn:Hload.
  destruct ok.
  - destruct (decide (channels = 3 \/ channels = 4)) as [Hch | Hch].
    + rewrite (CreateFromImage_loaded _ _ _ _ _ _ _ _ Hload Hch). cbv zeta.
      intros Hid. simpl in Hid. lia.
    + assert (H3 : channels <> 3) by tauto. assert (H4 : channels <> 4) by tauto.
      rewrite (CreateFromImage_unsupported _ _ _ _ _ _ _ _ Hload H3 H4).
      intros Hid. simpl in *. split; [exact Q_UNKNOW | apply (Ht1 Hid)].
  - rewrite (CreateFromImage_failed _ _ _ _ _ _ _ _ Hload).
    intros Hid. simpl in *. apply (Ht1 Hid).
Qed.

Lemma without_buffer_UpdateBuffer t g :
  without_buffer Q t -> without_buffer Q (UpdateBuffer t g).1.
Proof.
  intros Ht. unfold UpdateBuffer.
  destruct (decide (m_ID t <> 0%N \/ m_Dirty t = false)); [assumption |].
  assert (Ht' : without_buffer Q (set_Dirty false t)) by exact Ht.
  destruct (bool_decide _).
  - apply without_buffer_CreateFromImage. assumption.
  - apply without_buffer_CreateEmpty. assumption.
Qed.

Lemma without_buffer_run_call c t g :
  without_buffer Q t -> without_buffer Q (run_call c t g).1.
Proof.
  intros Ht. destruct c; simpl.
  - apply without_buffer_CreateFromImage. assumption.
  - apply without_buffer_CreateEmpty. assumption.
  - apply without_buffer_UpdateBuffer. assumption.
  - apply without_buffer_DeleteBuffer. assumption.
  - rewrite SetFilterMode_eq. exact Ht.
  - rewrite SetWrapMode_eq. exact Ht.
  - rewrite SetBorderColor_eq. exact Ht.
  - unfold GenerateMipMap. destruct (decide _); exact Ht.
Qed.

Lemma without_buffer_Load wrapper object t g :
  without_buffer Q t -> without_buffer Q (Load wrapper object t g).1.2.
Proof.
  intros Ht. unfold Load.
  destruct (object && negb (IsObject wrapper)); [exact Ht |].
  unfold Entity_Load. simpl.
  destruct (LoadMemberValue_string wrapper "name") as [name |]; simpl; [| exact Ht].
  rewrite SetBorderColor_eq, SetFilterMode_eq, SetWrapMode_eq.
  match goal with
  | |- context [set_WrapMode ?a (set_FilterMode ?b (set_BorderColor ?c (set_Name name t)))] =>
      assert (Ht' : without_buffer Q
                (set_WrapMode a (set_FilterMode b (set_BorderColor c (set_Name name t)))))
        by exact Ht;
      generalize dependent
        (set_WrapMode a (set_FilterMode b (set_BorderColor c (set_Name name t))))
  end.
  intros t' Ht'.
  destruct (LoadMemberValue_string wrapper "path") as [path |].
  - pose proof (without_buffer_CreateFromImage path
                  (default false (LoadMemberValue_bool wrapper "srgb"))
                  (default false (LoadMemberValue_bool wrapper "mipmap")) t' g Ht') as Hc.
    destruct (CreateFromImage _ _ _ _ _) as [t2 g2]. exact Hc.
  - destruct (LoadMemberValue_string wrapper "format") as [format |]; [| exact Ht'].
    destruct (LoadMemberValue_int wrapper "width") as [width |]; [| exact Ht'].
    destruct (LoadMemberValue_int wrapper "height") as [height |]; [| exact Ht'].
    match goal with
    | |- context [CreateEmpty ?a ?b ?c ?d ?e ?f t' g] =>
        pose proof (without_buffer_CreateEmpty a b c d e f t' g Ht') as Hc;
        destruct (CreateEmpty a b c d e f t' g) as [t2 g2]
    end.
    exact Hc.
Qed.

Lemma without_buffer_run_op o t g :
  without_buffer Q t -> without_buffer Q (run_op o t g).1.
Proof.
  destruct o; simpl.
  - apply without_buffer_run_call.
  - apply without_buffer_Load.
Qed.

Lemma run_ops_cons o os t g :
  run_ops (o :: os) t g = run_ops os (run_op o t g).1 (run_op o t g).2.
Proof.
  unfold run_ops. simpl. destruct (run_op o t g); reflexivity.
Qed.

Lemma without_buffer_run_ops os t g :
  without_buffer Q t -> without_buffer Q (run_ops os t g).1.
Proof.
  revert t g. induction os as [| o os IH]; intros t g Ht.
  - exact Ht.
  - rewrite run_ops_cons. apply IH. apply without_buffer_run_op. assumption.
Qed.

End LifeCycleInvariant.

Section LazyCoverage.
Context `{Engine}.

(** UpdateBuffer on a dirty texture without buffer, path and format. *)
Lemma UpdateBuffer_blank t g :
  m_ID t = 0%N -> m_FilePath t = "" -> m_Format t = UNKNOW ->
  UpdateBuffer t g = (t, g).
Proof.
  intros Hid Hpath Hformat. destruct (m_Dirty t) eqn:Hdirty.
  - rewrite UpdateBuffer_run by assumption. rewrite Hpath. simpl.
    rewrite Hformat, CreateEmpty_unknow.
    rewrite DeleteBuffer_unallocated by assumption.
    f_equal. destruct t; simpl in *. subst. reflexivity.
  - apply UpdateBuffer_skip. auto.
Qed.

(** UpdateBuffer on a texture without a file path. *)
Lemma UpdateBuffer_no_path t g :
  m_FilePath t = "" ->
  UpdateBuffer t g = (t, g)
  \/ (m_Format t <> UNKNOW /\ m_ID t = 0%N /\ m_Dirty t = true
      /\ UpdateBuffer t g =
           CreateEmpty (m_Width t) (m_Height t) (m_Depth t) (m_Format t) (m_Type t)
             (m_Mipmap t) (set_Dirty false t) g).
Proof.
  intros Hpath.
  destruct (decide (m_ID t <> 0%N \/ m_Dirty t = false)) as [Hskip | Hrun].
  - left. apply UpdateBuffer_skip. assumption.
  - assert (Hid : m_ID t = 0%N) by (destruct (decide (m_ID t = 0%N)); tauto).
    assert (Hdirty : m_Dirty t = true) by (destruct (m_Dirty t); tauto).
    destruct (decide (m_Format t = UNKNOW)) as [Hf | Hf].
    + left. apply UpdateBuffer_blank; assumption.
    + right. repeat (split; [assumption |]).
      rewrite UpdateBuffer_run by assumption. rewrite Hpath. reflexivity.
Qed.

(** X3. Take a new texture and apply to it any sequence of the calls of
    Texture.cpp (CreateFromImage, CreateEmpty, UpdateBuffer, DeleteBuffer,
    the setters, GenerateMipMap, Load).  The result has a file path only
    while it owns a buffer.  So UpdateBuffer on it never reaches
    CreateFromImage: it changes nothing, or it runs CreateEmpty on the
    stored parameters. *)
Theorem file_path_needs_buffer os name g :
  let t := (run_ops os (Texture_new name) g).1 in
  (m_ID t = 0%N -> m_FilePath t = "")
  /\ (m_FilePath t <> "" -> m_ID t <> 0%N)
  /\ forall g',
      UpdateBuffer t g' = (t, g')
      \/ UpdateBuffer t g' =
           CreateEmpty (m_Width t) (m_Height t) (m_Depth t) (m_Format t) (m_Type t)
             (m_Mipmap t) (set_Dirty false t) g'.
Proof.
  cbv zeta.
  assert (Hinv : path_has_buffer (run_ops os (Texture_new name) g).1).
  { apply without_buffer_run_ops; [exact I |]. intros _. split; [exact I | reflexivity]. }
  set (t := (run_ops os (Texture_new name) g).1) in *.
  split; [intros Hid; apply (Hinv Hid) |].
  split.
  { intros Hpath Hid. apply Hpath. apply (Hinv Hid). }
  intros g'. destruct (decide (m_ID t = 0%N)) as [Hid | Hid].
  - destruct (UpdateBuffer_no_path t g' (proj2 (Hinv Hid))) as [Hu | (_ & _ & _ & Hu)];
      auto.
  - left. apply UpdateBuffer_skip. auto.
Qed.

(** X4. When a new texture starts with the format UNKNOW, every texture
    obtained from it by the calls of Texture.cpp that owns no buffer has
    the format UNKNOW and no file path, and UpdateBuffer changes nothing
    on it: no sequence of these calls leads to a state from which
    UpdateBuffer allocates. *)
Theorem UpdateBuffer_never_allocates os name g :
  init_Format = UNKNOW ->
  let t := (run_ops os (Texture_new name) g).1 in
  (m_ID t = 0%N -> m_Format t = UNKNOW /\ m_FilePath t = "")
  /\ forall g', UpdateBuffer t g' = (t, g').
Proof.
  intros Hinit. cbv zeta.
  assert (Hinv : blank_without_buffer (run_ops os (Texture_new name) g).1).
  { apply without_buffer_run_ops; [reflexivity |]. intros _. split; [exact Hinit | reflexivity]. }
  set (t := (run_ops os (Texture_new name) g).1) in *.
  split; [exact Hinv |].
  intros g'. destruct (decide (m_ID t = 0%N)) as [Hid | Hid].
  - destruct (Hinv Hid) as [Hf Hpath]. apply UpdateBuffer_blank; assumption.
  - apply UpdateBuffer_skip. auto.
Qed.

(** X13. On a texture that has a file path only while it owns a buffer,
    a second UpdateBuffer changes nothing: calling it again, every frame
    say, allocates at most once. *)
Theorem UpdateBuffer_idempotent t g :
  (m_ID t = 0%N -> m_FilePath t = "") ->
  UpdateBuffer (UpdateBuffer t g).1 (UpdateBuffer t g).2 = UpdateBuffer t g.
Proof.
  intros Hinv. destruct (decide (m_ID t = 0%N)) as [Hid | Hid].
  - destruct (UpdateBuffer_no_path t g (Hinv Hid)) as [Hu | (Hf & _ & _ & Hu)].
    + rewrite Hu. simpl. exact Hu.
    + rewrite Hu. rewrite CreateEmpty_known by assumption. cbv zeta. simpl.
      apply UpdateBuffer_skip. simpl. left. lia.
  - rewrite (UpdateBuffer_skip t g) by auto. simpl. apply UpdateBuffer_skip. auto.
Qed.

End LazyCoverage.

(** The three ways through CreateFromImage, each with its equation
    rewritten. *)
Ltac CreateFromImage_cases filePath srgb mipMap t g :=
  let ok := fresh "ok" in
  let width := fresh "width" in
  let height := fresh "height" in
  let channels := fresh "channels" in
  let Hload := fresh "Hload" in
  let Hch := fresh "Hch" in
  let H3 := fresh "H3" in
  let H4 := fresh "H4" in
  destruct (LoadImage filePath (m_Width (DeleteBuffer t g).1)
              (m_Height (DeleteBuffer t g).1)) as [[ok [width height]] channels] eqn:Hload;
  destruct ok;
  [ destruct (decide (channels = 3 \/ channels = 4)) as [Hch | Hch];
    [ rewrite (CreateFromImage_loaded filePath srgb mipMap t g _ _ _ Hload Hch)
    | assert (H3 : channels <> 3) by tauto;
      assert (H4 : channels <> 4) by tauto;
      rewrite (CreateFromImage_unsupported filePath srgb mipMap t g _ _ _ Hload H3 H4) ]
  | rewrite (CreateFromImage_failed filePath srgb mipMap t g _ _ _ Hload) ].

Section LoadCoverage.
Context `{Engine}.

Lemma CreateFromImage_sampler filePath srgb mipMap t g :
  let t' := (CreateFromImage filePath srgb mipMap t g).1 in
  m_Name t' = m_Name t /\ m_FilterMode t' = m_FilterMode t
  /\ m_WrapMode t' = m_WrapMode t /\ m_BorderColor t' = m_BorderColor t.
Proof.
  cbv zeta. pose proof (DeleteBuffer_sampler t g) as (Hn & Hf & Hw & Hb & _).
  CreateFromImage_cases filePath srgb mipMap t g; simpl; auto.
Qed.

Lemma CreateFromImage_buffer filePath srgb mipMap t g :
  let t' := (CreateFromImage filePath srgb mipMap t g).1 in
  m_ID t' <> 0%N ->
  m_FilePath t' = filePath /\ m_Mipmap t' = mipMap /\ m_Depth t' = 0
  /\ m_Dirty t' = false.
Proof.
  cbv zeta. pose proof (DeleteBuffer_ID t g) as Hid.
  CreateFromImage_cases filePath srgb mipMap t g; simpl; intros Hne;
    try contradiction; auto.
Qed.

(** X5. When Load answers false, the buffer and the globals are what they
    were: buffer id, dirty flag, format, type, width, height, depth, mipmap
    flag and file path of the texture, the memory total and the GL names
    are unchanged.  (Name, border color, filter and wrap mode may already
    have been overwritten.) *)
Theorem Load_failure_keeps_buffer wrapper object t g :
  (Load wrapper object t g).1.1 = false ->
  let r := Load wrapper object t g in
  r.2 = g
  /\ m_ID r.1.2 = m_ID t /\ m_Dirty r.1.2 = m_Dirty t
  /\ m_Format r.1.2 = m_Format t /\ m_Type r.1.2 = m_Type t
  /\ m_Width r.1.2 = m_Width t /\ m_Height r.1.2 = m_Height t
  /\ m_Depth r.1.2 = m_Depth t /\ m_Mipmap r.1.2 = m_Mipmap t
  /\ m_FilePath r.1.2 = m_FilePath t.
Proof.
  cbv zeta. unfold Load.
  destruct (object && negb (IsObject wrapper)); [intros _; simpl; repeat split |].
  unfold Entity_Load. simpl.
  destruct (LoadMemberValue_string wrapper "name") as [name |]; simpl;
    [| intros _; repeat split].
  rewrite SetBorderColor_eq, SetFilterMode_eq, SetWrapMode_eq.
  destruct (LoadMemberValue_string wrapper "path") as [path |].
  { destruct (CreateFromImage _ _ _ _ _) as [t2 g2]. simpl. discriminate. }
  destruct (LoadMemberValue_string wrapper "format") as [format |];
    [| intros _; simpl; repeat split].
  destruct (LoadMemberValue_int wrapper "width") as [width |];
    [| intros _; simpl; repeat split].
  destruct (LoadMemberValue_int wrapper "height") as [height |];
    [| intros _; simpl; repeat split].
  destruct (CreateEmpty _ _ _ _ _ _ _ _) as [t2 g2]. simpl. discriminate.
Qed.

(** X6. A document that is an object with a name, a format name that
    reads as a format other than UNKNOW, a width and a height, and from
    which no "path", "filter", "wrap", "borderColor", "mipmap", "type" and
    "depth" can be loaded (absent, or of another type): Load answers true
    and the texture has a buffer of that format, width and height with
    the defaults LINEAR, REPEAT, Color::Black, no mipmaps, depth 0 and the
    type that the name of TEXTURE_2D reads as. *)
Theorem Load_defaults wrapper object t g name format width height :
  (object = true -> IsObject wrapper = true) ->
  LoadMemberValue_string wrapper "name" = Some name ->
  LoadMemberValue_string wrapper "format" = Some format ->
  TextureFormatFromString format <> UNKNOW ->
  LoadMemberValue_int wrapper "width" = Some width ->
  LoadMemberValue_int wrapper "height" = Some height ->
  LoadMemberValue_string wrapper "path" = None ->
  LoadMemberValue_string wrapper "filter" = None ->
  LoadMemberValue_string wrapper "wrap" = None ->
  LoadMemberValue_Color wrapper "borderColor" = None ->
  LoadMemberValue_bool wrapper "mipmap" = None ->
  LoadMemberValue_string wrapper "type" = None ->
  LoadMemberValue_int wrapper "depth" = None ->
  let r := Load wrapper object t g in
  r.1.1 = true
  /\ m_Name r.1.2 = name
  /\ m_FilterMode r.1.2 = LINEAR /\ m_WrapMode r.1.2 = REPEAT
  /\ m_BorderColor r.1.2 = Color_Black
  /\ m_Mipmap r.1.2 = false /\ m_Depth r.1.2 = 0
  /\ m_Type r.1.2 = TextureTypeFromString (TextureTypeToString TEXTURE_2D)
  /\ m_Format r.1.2 = TextureFormatFromString format
  /\ m_Width r.1.2 = width /\ m_Height r.1.2 = height
  /\ m_ID r.1.2 <> 0%N /\ m_Dirty r.1.2 = false.
Proof.
  intros Hobj Hname Hformat Hknown Hwidth Hheight Hpath Hfilter Hwrap Hcolor Hmip
    Htype Hdepth.
  cbv zeta. unfold Load.
  assert (Hgate : object && negb (IsObject wrapper) = false).
  { destruct object; [rewrite Hobj by reflexivity |]; reflexivity. }
  rewrite Hgate. unfold Entity_Load. simpl.
  rewrite Hname, Hfilter, Hwrap, Hcolor, Hmip, Hpath, Hformat, Htype, Hwidth, Hheight,
    Hdepth. simpl.
  rewrite SetBorderColor_eq, SetFilterMode_eq, SetWrapMode_eq.
  rewrite CreateEmpty_known by assumption. cbv zeta.
  match goal with
  | |- context [DeleteBuffer ?t1 g] =>
      pose proof (DeleteBuffer_sampler t1 g) as (Hn & Hfm & Hwm & Hbc & _)
  end.
  simpl in *.
  repeat (split; [first [assumption | reflexivity] |]).
  split; [lia | reflexivity].
Qed.

(** The document Save writes for a texture with a file path. *)
Lemma Save_document_file t :
  m_FilePath t <> "" ->
  document (Save true t []) =
    Some (JObject
      [("name", JString (m_Name t));
       ("path", JString (m_FilePath t));
       ("srgb", JBool (IsSRGB t));
       ("borderColor", JColor (m_BorderColor t));
       ("mipmap", JBool (m_Mipmap t));
       ("filter", JString (FilterModeToString (m_FilterMode t)));
       ("wrap", JString (WrapModeToString (m_WrapMode t)))]).
Proof.
  intros Hpath. unfold Save. rewrite bool_decide_eq_false_2 by assumption.
  reflexivity.
Qed.

(** X7. A texture with a file path is saved as a document that Load
    accepts into any texture object, whether or not the image can be
    loaded again: Load answers true, restores the name, border color,
    filter and wrap mode, and runs CreateFromImage with the saved path,
    the srgb flag IsSRGB gave and the saved mipmap flag.  If that gives a
    buffer, the loaded texture has the saved path and mipmap flag and
    depth 0. *)
Theorem Save_Load_file_backed `{!NamesReadBack} t :
  m_FilePath t <> "" ->
  exists doc,
    document (Save true t []) = Some doc
    /\ forall t0 g,
        let r := Load doc true t0 g in
        r.1.1 = true
        /\ (r.1.2, r.2) =
             CreateFromImage (m_FilePath t) (IsSRGB t) (m_Mipmap t)
               (set_WrapMode (m_WrapMode t) (set_FilterMode (m_FilterMode t)
                  (set_BorderColor (m_BorderColor t) (set_Name (m_Name t) t0)))) g
        /\ m_Name r.1.2 = m_Name t
        /\ m_BorderColor r.1.2 = m_BorderColor t
        /\ m_FilterMode r.1.2 = m_FilterMode t
        /\ m_WrapMode r.1.2 = m_WrapMode t
        /\ (m_ID r.1.2 <> 0%N ->
            m_FilePath r.1.2 = m_FilePath t /\ m_Mipmap r.1.2 = m_Mipmap t
            /\ m_Depth r.1.2 = 0 /\ m_Dirty r.1.2 = false).
Proof.
  intros Hpath. eexists. split; [apply Save_document_file; assumption |].
  intros t0 g. cbv zeta. unfold Load. simpl.
  rewrite FilterMode_read_back, WrapMode_read_back.
  rewrite SetBorderColor_eq, SetFilterMode_eq, SetWrapMode_eq.
  match goal with
  | |- context [CreateFromImage ?a ?b ?c ?t1 g] =>
      pose proof (CreateFromImage_sampler a b c t1 g) as (Hn & Hfm & Hwm & Hbc);
      pose proof (CreateFromImage_buffer a b c t1 g) as Hbuf;
      destruct (CreateFromImage a b c t1 g) as [t2 g2]
  end.
  simpl in *. repeat (split; [first [assumption | reflexivity] |]). exact Hbuf.
Qed.

End LoadCoverage.

Section PoolCoverage.
Context `{Engine}.

Lemma free_stack_cons w key top rest :
  m_TexturePool w !! key = Some (top :: rest) -> free_stack w key = top :: rest.
Proof. unfold free_stack. intros ->. reflexivity. Qed.

(** X9. Two textures of the key's shape returned to the pool come back
    in reverse order: the next GetTempory for the key returns the one
    returned last, the one after it the one returned first, and then the
    texture objects, the globals and the key's free stack are what they
    were before the two returns.  The two may be one and the same object:
    returned twice, it is handed out twice. *)
Theorem pool_is_LIFO width height depth format type w p1 p2 t1 t2 :
  let key := GetKeyFromParams width height depth format type in
  heap w !! p1 = Some t1 -> GetKeyFromPtr t1 = key ->
  heap w !! p2 = Some t2 -> GetKeyFromPtr t2 = key ->
  exists w1 w2 w3 w4,
    CollectTempory p1 w = Some w1
    /\ CollectTempory p2 w1 = Some w2
    /\ GetTempory width height depth format type w2 = Some (p2, w3)
    /\ GetTempory width height depth format type w3 = Some (p1, w4)
    /\ heap w4 = heap w
    /\ globals w4 = globals w
    /\ free_stack w4 key = free_stack w key.
Proof.
  cbv zeta. intros Hp1 Hk1 Hp2 Hk2.
  eexists. eexists. eexists. eexists.
  split; [apply (CollectTempory_pool _ _ _ Hp1) |].
  split; [apply CollectTempory_pool; exact Hp2 |].
  rewrite Hk1, Hk2.
  set (key := GetKeyFromParams width height depth format type).
  split.
  { apply GetTempory_reuse. simpl. fold key. rewrite lookup_insert_eq.
    unfold free_stack at 1. simpl. rewrite lookup_insert_eq. reflexivity. }
  split.
  { apply GetTempory_reuse. simpl. fold key. rewrite lookup_insert_eq. reflexivity. }
  simpl. split; [reflexivity |]. split; [reflexivity |].
  unfold free_stack at 1. simpl. fold key. rewrite lookup_insert_eq. reflexivity.
Qed.

(** ** The pool stays sorted *)

Lemma pool_sorted_CollectTempory p w w' :
  pool_sorted w -> CollectTempory p w = Some w' -> pool_sorted w'.
Proof.
  intros Hsorted Hcollect.
  destruct (heap w !! p) as [t |] eqn:Hp.
  2: { unfold CollectTempory in Hcollect. rewrite Hp in Hcollect. discriminate. }
  rewrite (CollectTempory_pool _ _ _ Hp) in Hcollect. injection Hcollect as <-.
  intros key stack q Hs Hq. unfold has_shape. simpl in *.
  destruct (decide (key = GetKeyFromPtr t)) as [-> | Hne].
  - rewrite lookup_insert_eq in Hs. injection Hs as <-.
    apply elem_of_cons in Hq as [-> | Hq].
    + exists t. auto.
    + apply (Hsorted (GetKeyFromPtr t) (free_stack w (GetKeyFromPtr t))); [| assumption].
      unfold free_stack in *.
      destruct (m_TexturePool w !! GetKeyFromPtr t); [reflexivity |].
      apply elem_of_nil in Hq. contradiction.
  - rewrite lookup_insert_ne in Hs by congruence. apply (Hsorted key stack); assumption.
Qed.

Lemma pool_sorted_GetTempory width height depth format type w p w' :
  pool_sorted w -> GetTempory width height depth format type w = Some (p, w') ->
  pool_sorted w'.
Proof.
  intros Hsorted Hget.
  destruct (m_TexturePool w !! GetKeyFromParams width height depth format type)
    as [[| top rest] |] eqn:Hs.
  2: { rewrite (GetTempory_reuse _ _ _ _ _ _ _ _ Hs) in Hget. injection Hget as <- <-.
       intros key stack q Hk Hq. unfold has_shape. simpl in *.
       destruct (decide (key = GetKeyFromParams width height depth format type))
         as [-> | Hne].
       - rewrite lookup_insert_eq in Hk. injection Hk as <-.
         apply (Hsorted _ _ q Hs). apply list_elem_of_further. assumption.
       - rewrite lookup_insert_ne in Hk by congruence. apply (Hsorted key stack); assumption. }
  all: rewrite GetTempory_create in Hget by (apply free_stack_nil; auto);
    cbv zeta in Hget; injection Hget as <- <-;
    intros key stack q Hk Hq; simpl in Hk;
    destruct (Hsorted key stack q Hk Hq) as (t & Hqt & Hkey);
    exists t; simpl; split; [| assumption];
    rewrite lookup_insert_ne; [assumption |];
    intros Heq; subst q; rewrite fresh_address in Hqt; discriminate.
Qed.

Lemma pool_sorted_run_pool_calls cs w w' :
  pool_sorted w -> run_pool_calls cs w = Some w' -> pool_sorted w'.
Proof.
  revert w. induction cs as [| c cs IH]; intros w Hsorted Hrun; simpl in Hrun.
  - injection Hrun as <-. assumption.
  - destruct (run_pool_call c w) as [w1 |] eqn:Hc; simpl in Hrun; [| discriminate].
    apply (IH w1); [| assumption].
    destruct c as [width height depth format type | p]; simpl in Hc.
    + destruct (GetTempory width height depth format type w) as [[p w2] |] eqn:Hget;
        simpl in Hc; [| discriminate].
      injection Hc as <-. apply (pool_sorted_GetTempory _ _ _ _ _ _ _ _ Hsorted Hget).
    + apply (pool_sorted_CollectTempory _ _ _ Hsorted Hc).
Qed.

(** X10. Start from a pool in which every free entry has the shape of
    its key (an empty pool, say) and make any sequence of GetTempory and
    CollectTempory calls.  Then every free entry still has the shape of its
    key, and a GetTempory with a format other than UNKNOW returns a texture
    object whose width, height, depth, format and type give the key that
    was asked for. *)
Theorem pool_hands_out_requested_shape cs w0 w width height depth format type :
  pool_sorted w0 -> run_pool_calls cs w0 = Some w -> format <> UNKNOW ->
  pool_sorted w
  /\ exists p w' t,
      GetTempory width height depth format type w = Some (p, w')
      /\ heap w' !! p = Some t
      /\ GetKeyFromPtr t = GetKeyFromParams width height depth format type
      /\ pool_sorted w'.
Proof.
  intros Hsorted0 Hrun Hformat.
  pose proof (pool_sorted_run_pool_calls _ _ _ Hsorted0 Hrun) as Hsorted.
  split; [assumption |].
  destruct (GetTempory_total width height depth format type w) as [[p w'] Hget].
  assert (Hshape : has_shape w' (GetKeyFromParams width height depth format type) p).
  { apply (GetTempory_shape width height depth format type w p w'); [auto | | assumption].
    intros top rest Hs. apply (Hsorted _ _ top Hs). apply list_elem_of_here. }
  destruct Hshape as (t & Hp & Hkey).
  exists p, w', t. repeat (split; [assumption |]).
  apply (pool_sorted_GetTempory _ _ _ _ _ _ _ _ Hsorted Hget).
Qed.

Lemma resident_nonneg t : 0 <= resident t.
Proof.
  unfold resident, footprint. destruct (decide _); [lia | apply texture_bytes_nonneg].
Qed.

Lemma CreateEmpty_buffers width height depth format type mipMap t g :
  m_Buffers (bufferManager (CreateEmpty width height depth format type mipMap t g).2)
  = m_Buffers (bufferManager g).
Proof.
  destruct (decide (format = UNKNOW)) as [-> | Hf].
  - rewrite CreateEmpty_unknow. apply DeleteBuffer_buffers.
  - rewrite CreateEmpty_known by assumption. cbv zeta. simpl.
    apply DeleteBuffer_buffers.
Qed.

Lemma CreateEmpty_new_memory width height depth format type mipMap name g :
  memory g <= memory (CreateEmpty width height depth format type mipMap (Texture_new name) g).2.
Proof.
  pose proof (balance_CreateEmpty width height depth format type mipMap
                (Texture_new name) g) as Hb.
  rewrite (balance_unallocated (Texture_new name) g) in Hb by reflexivity.
  pose proof (resident_nonneg
                (CreateEmpty width height depth format type mipMap (Texture_new name) g).1).
  unfold balance in Hb. lia.
Qed.

Lemma GetTempory_create_frame width height depth format type w :
  free_stack w (GetKeyFromParams width height depth format type) = [] ->
  exists p w',
    GetTempory width height depth format type w = Some (p, w')
    /\ m_TexturePool w' = m_TexturePool w
    /\ (forall q t, heap w !! q = Some t -> heap w' !! q = Some t)
    /\ (forall q, registered w q -> registered w' q)
    /\ memory (globals w) <= memory (globals w').
Proof.
  intros Hnil. eexists. eexists.
  split; [apply GetTempory_create; assumption |].
  cbv zeta. simpl. split; [reflexivity |]. split; [| split].
  - intros q t Hq. rewrite lookup_insert_ne; [assumption |].
    intros Heq. subst q. rewrite fresh_address in Hq. discriminate.
  - intros q Hq. unfold registered in *. simpl.
    rewrite CreateEmpty_buffers. simpl. set_solver.
  - match goal with
    | |- context [CreateEmpty ?a ?b ?c ?d ?e ?f (Texture_new ?n) ?g] =>
        pose proof (CreateEmpty_new_memory a b c d e f n g) as Hm
    end.
    unfold memory in *. simpl in *. exact Hm.
Qed.

(** X11. GetTempory always returns, and whatever it does it leaves the
    free stacks of all other keys and every texture object that existed
    as they were, keeps registered what was registered, and never lowers
    the memory total. *)
Theorem GetTempory_frame width height depth format type w :
  exists p w',
    GetTempory width height depth format type w = Some (p, w')
    /\ (forall key, key <> GetKeyFromParams width height depth format type ->
          m_TexturePool w' !! key = m_TexturePool w !! key)
    /\ (forall q t, heap w !! q = Some t -> heap w' !! q = Some t)
    /\ (forall q, registered w q -> registered w' q)
    /\ memory (globals w) <= memory (globals w').
Proof.
  destruct (m_TexturePool w !! GetKeyFromParams width height depth format type)
    as [[| top rest] |] eqn:Hs.
  2: { eexists. eexists. split; [apply (GetTempory_reuse _ _ _ _ _ _ _ _ Hs) |].
       simpl. split; [| split; [| split]]; auto.
       - intros key Hne. apply lookup_insert_ne. congruence.
       - lia. }
  all: destruct (GetTempory_create_frame width height depth format type w)
         as (p & w' & Hget & Hpool & Hheap & Hreg & Hmem);
    [apply free_stack_nil; auto |];
    exists p, w'; split; [assumption |];
    split; [intros key _; rewrite Hpool; reflexivity | auto].
Qed.

(** X14. ReleaseTempories leaves every free stack as it was, so a texture
    that was on top of a free stack is still what the next GetTempory for
    its key returns; if it was registered with the buffer manager, it is
    returned without a buffer. *)
Theorem ReleaseTempories_keeps_entries w :
  m_TexturePool (ReleaseTempories w) = m_TexturePool w
  /\ forall width height depth format type top rest,
      m_TexturePool w !! GetKeyFromParams width height depth format type
        = Some (top :: rest) ->
      exists w',
        GetTempory width height depth format type (ReleaseTempories w) = Some (top, w')
        /\ forall t, registered w top -> heap w !! top = Some t ->
             exists t', heap w' !! top = Some t' /\ m_ID t' = 0%N.
Proof.
  split; [apply ReleaseTempories_pool |].
  intros width height depth format type top rest Hs.
  eexists. split.
  { apply GetTempory_reuse. rewrite ReleaseTempories_pool. exact Hs. }
  intros t Hreg Hp. simpl. rewrite ReleaseTempories_release_all.
  assert (Hin : top ∈ pool_entries w).
  { apply elem_of_pool_entries. eexists. eexists. split; [exact Hs |].
    apply list_elem_of_here. }
  destruct (release_all_releases _ _ _ _ Hin Hreg Hp) as (t' & Ht' & [Hid _] & _).
  exists t'. auto.
Qed.

End PoolCoverage.

Section HistoryCoverage.
Context `{Engine}.

Lemma balance_Load wrapper object t g :
  balance ((Load wrapper object t g).1.2, (Load wrapper object t g).2) = balance (t, g).
Proof.
  unfold Load.
  destruct (object && negb (IsObject wrapper)); [reflexivity |].
  unfold Entity_Load. simpl.
  destruct (LoadMemberValue_string wrapper "name") as [name |]; simpl; [| reflexivity].
  rewrite SetBorderColor_eq, SetFilterMode_eq, SetWrapMode_eq.
  destruct (LoadMemberValue_string wrapper "path") as [path |].
  { match goal with
    | |- context [CreateFromImage ?a ?b ?c ?t1 g] =>
        pose proof (balance_CreateFromImage a b c t1 g) as Hb;
        destruct (CreateFromImage a b c t1 g) as [t2 g2]
    end.
    simpl. rewrite Hb. reflexivity. }
  destruct (LoadMemberValue_string wrapper "format") as [format |]; [| reflexivity].
  destruct (LoadMemberValue_int wrapper "width") as [width |]; [| reflexivity].
  destruct (LoadMemberValue_int wrapper "height") as [height |]; [| reflexivity].
  match goal with
  | |- context [CreateEmpty ?a ?b ?c ?d ?e ?f ?t1 g] =>
      pose proof (balance_CreateEmpty a b c d e f t1 g) as Hb;
      destruct (CreateEmpty a b c d e f t1 g) as [t2 g2]
  end.
  simpl. rewrite Hb. reflexivity.
Qed.

Lemma balance_run_op o t g : balance (run_op o t g) = balance (t, g).
Proof.
  destruct o; simpl.
  - apply balance_run_call.
  - apply balance_Load.
Qed.

Lemma world_balance_run_world_op o w w' :
  run_world_op o w = Some w' -> world_balance w' = world_balance w.
Proof.
  destruct o as [width height depth format type | p | | p o]; simpl.
  - destruct (GetTempory width height depth format type w) as [[p w1] |] eqn:Hget;
      simpl; [| discriminate].
    intros [= <-]. apply (GetTempory_balance _ _ _ _ _ _ _ _ Hget).
  - intros Hc. destruct (CollectTempory_frame _ _ _ Hc) as [Hh Hg].
    unfold world_balance. rewrite Hh, Hg. reflexivity.
  - intros [= <-]. apply ReleaseTempories_balance.
  - apply call_balance. apply balance_run_op.
Qed.

Lemma world_balance_run_world_ops os w w' :
  run_world_ops os w = Some w' -> world_balance w' = world_balance w.
Proof.
  revert w. induction os as [| o os IH]; intros w; simpl.
  - intros [= <-]. reflexivity.
  - destruct (run_world_op o w) as [w1 |] eqn:Ho; simpl; [| discriminate].
    intros Hrun. rewrite (IH _ Hrun). apply (world_balance_run_world_op _ _ _ Ho).
Qed.

Lemma total_resident_nonneg (h : gmap ptr Texture) : 0 <= total_resident h.
Proof.
  unfold total_resident.
  apply (map_fold_weak_ind (fun r (_ : gmap ptr Texture) => 0 <= r)).
  - lia.
  - intros p t m r _ Hr. pose proof (resident_nonneg t). lia.
Qed.

(** X15. If the memory total equals the bytes held by the buffers that
    exist (as in a world without textures and a total of 0), it still does
    after any sequence of GetTempory, CollectTempory, ReleaseTempories and
    calls on texture objects (CreateFromImage, CreateEmpty, UpdateBuffer,
    DeleteBuffer, the setters, GenerateMipMap, Load); in particular the
    total never becomes negative. *)
Theorem memory_total_is_exact os w0 w :
  memory (globals w0) = total_resident (heap w0) ->
  run_world_ops os w0 = Some w ->
  memory (globals w) = total_resident (heap w) /\ 0 <= memory (globals w).
Proof.
  intros Hexact Hrun.
  pose proof (world_balance_run_world_ops _ _ _ Hrun) as Hb.
  unfold world_balance in Hb.
  pose proof (total_resident_nonneg (heap w)). lia.
Qed.

(** X16. One acquire-and-return cycle for a key brings the pool into a
    state that further cycles for that key do not change at all: when a
    request that finds no free entry has a format other than UNKNOW and a
    free entry on top of the key's stack has the key's shape, the world
    after one cycle is the world after two.  Repeated cycles allocate
    once. *)
Theorem cycle_is_steady width height depth format type w w1 :
  let key := GetKeyFromParams width height depth format type in
  (free_stack w key = [] -> format <> UNKNOW) ->
  (forall top rest, m_TexturePool w !! key = Some (top :: rest) -> has_shape w key top) ->
  cycle width height depth format type w = Some w1 ->
  cycle width height depth format type w1 = Some w1.
Proof.
  cbv zeta. intros Hnew Hold. unfold cycle.
  destruct (GetTempory width height depth format type w) as [[p wa] |] eqn:Hget;
    simpl; [| discriminate].
  intros Hcollect.
  pose proof (GetTempory_shape _ _ _ _ _ _ _ _ Hnew Hold Hget) as (t & Hp & Hkey).
  rewrite (CollectTempory_pool _ _ _ Hp) in Hcollect. injection Hcollect as <-.
  rewrite Hkey.
  set (key := GetKeyFromParams width height depth format type) in *.
  rewrite (GetTempory_reuse width height depth format type _ p (free_stack wa key)).
  2: { simpl. apply lookup_insert_eq. }
  simpl. fold key.
  rewrite (CollectTempory_pool p t).
  2: { simpl. exact Hp. }
  rewrite Hkey. fold key. unfold with_pool, free_stack. simpl.
  rewrite !lookup_insert_eq. simpl. rewrite !insert_insert_eq. reflexivity.
Qed.

End HistoryCoverage.

(** * The further properties on the concrete configuration *)

Section CoverageRuns.
Import Sample.

Lemma sample_LinearFormats : LinearFormats.
Proof. split; repeat split; discriminate. Qed.

#[local] Existing Instance sample_LinearFormats.
#[local] Existing Instance sample_NamesReadBack.

Lemma world3_texture1 : heap world3 !! 1%positive = Some texture1.
Proof. vm_compute. reflexivity. Qed.

Lemma world3_texture2 : heap world3 !! 2%positive = Some texture2.
Proof. vm_compute. reflexivity. Qed.

Lemma world4_history : run_pool_calls pool_history world0 = Some world4.
Proof. vm_compute. reflexivity. Qed.

Lemma world0_sorted : pool_sorted world0.
Proof.
  intros key stack p Hs. simpl in Hs. rewrite lookup_empty in Hs. discriminate.
Qed.

(** X1, witness: the 2x2 image with 4 channels, loaded as sRGB. *)
Lemma CreateFromImage_outcome_witness :
  let r := CreateFromImage "a.png" true false (Texture_new "image") globals0 in
  m_ID r.1 <> 0%N /\ m_Dirty r.1 = false /\ m_Depth r.1 = 0
  /\ m_FilePath r.1 = "a.png" /\ m_Format r.1 = SRGB8_ALPHA8
  /\ memory r.2 = 16.
Proof.
  destruct (CreateFromImage_outcome "a.png" true false (Texture_new "image") globals0)
    as (_ & _ & Hyes & _).
  destruct (Hyes eq_refl (or_intror eq_refl))
    as (Hid & _ & Hd & Hdepth & _ & Hpath & Hformat & Hmem).
  cbv zeta. split; [exact Hid |]. split; [exact Hd |]. split; [exact Hdepth |].
  split; [exact Hpath |]. split; [exact Hformat |]. exact Hmem.
Defined.

(** X4, witness: a buffer created and deleted is not recreated. *)
Lemma UpdateBuffer_never_allocates_witness :
  init_Format = UNKNOW
  /\ let t := (run_ops texture_history (Texture_new "t") globals0).1 in
     (m_ID t = 0%N -> m_Format t = UNKNOW /\ m_FilePath t = "")
     /\ forall g', UpdateBuffer t g' = (t, g').
Proof.
  split; [reflexivity |].
  apply (UpdateBuffer_never_allocates texture_history "t" globals0 eq_refl).
Defined.

(** X5, witness: a document without a format, loaded into the allocated
    texture of [world1]. *)
Lemma Load_failure_keeps_buffer_witness :
  (Load formatless_doc true texture1 (globals world1)).1.1 = false
  /\ let r := Load formatless_doc true texture1 (globals world1) in
     r.2 = globals world1
     /\ m_ID r.1.2 = m_ID texture1 /\ m_Dirty r.1.2 = m_Dirty texture1
     /\ m_Format r.1.2 = m_Format texture1 /\ m_Type r.1.2 = m_Type texture1
     /\ m_Width r.1.2 = m_Width texture1 /\ m_Height r.1.2 = m_Height texture1
     /\ m_Depth r.1.2 = m_Depth texture1 /\ m_Mipmap r.1.2 = m_Mipmap texture1
     /\ m_FilePath r.1.2 = m_FilePath texture1.
Proof.
  split; [reflexivity |].
  apply (Load_failure_keeps_buffer formatless_doc true texture1 (globals world1) eq_refl).
Defined.

(** X6, witness: the document with the four members Load needs. *)
Lemma Load_defaults_witness :
  LoadMemberValue_string minimal_doc "format" = Some "rgba8"
  /\ LoadMemberValue_string minimal_doc "filter" = None
  /\ LoadMemberValue_int minimal_doc "depth" = None
  /\ let r := Load minimal_doc true (Texture_new "new") globals0 in
     r.1.1 = true
     /\ m_Name r.1.2 = "minimal"
     /\ m_FilterMode r.1.2 = LINEAR /\ m_WrapMode r.1.2 = REPEAT
     /\ m_BorderColor r.1.2 = Color_Black
     /\ m_Mipmap r.1.2 = false /\ m_Depth r.1.2 = 0
     /\ m_Type r.1.2 = TextureTypeFromString (TextureTypeToString TEXTURE_2D)
     /\ m_Format r.1.2 = TextureFormatFromString "rgba8"
     /\ m_Width r.1.2 = 4 /\ m_Height r.1.2 = 8
     /\ m_ID r.1.2 <> 0%N /\ m_Dirty r.1.2 = false.
Proof.
  split; [reflexivity |]. split; [reflexivity |]. split; [reflexivity |].
  apply (Load_defaults minimal_doc true (Texture_new "new") globals0
           "minimal" "rgba8" 4 8);
    first [reflexivity | discriminate].
Defined.

(** X7, witness: the texture made of "a.png", saved and loaded. *)
Lemma Save_Load_file_backed_witness :
  m_FilePath image1 <> ""
  /\ exists doc,
      document (Save true image1 []) = Some doc
      /\ let r := Load doc true (Texture_new "copy") globals0 in
         r.1.1 = true /\ m_Name r.1.2 = "image"
         /\ m_FilterMode r.1.2 = m_FilterMode image1.
Proof.
  assert (Hpath : m_FilePath image1 <> "") by discriminate.
  split; [exact Hpath |].
  destruct (Save_Load_file_backed image1 Hpath) as (doc & Hdoc & Hload).
  exists doc. split; [exact Hdoc |].
  destruct (Hload (Texture_new "copy") globals0) as (Hok & _ & Hn & _ & Hf & _).
  cbv zeta. split; [exact Hok |]. split; [exact Hn | exact Hf].
Defined.

(** X8, witness: "a.png" loaded as sRGB answers IsSRGB with true. *)
Lemma CreateFromImage_IsSRGB_witness :
  let r := CreateFromImage "a.png" true false (Texture_new "image") globals0 in
  m_ID r.1 <> 0%N /\ IsSRGB r.1 = true.
Proof.
  assert (Hid : m_ID (CreateFromImage "a.png" true false (Texture_new "image")
                        globals0).1 <> 0%N) by discriminate.
  cbv zeta. split; [exact Hid |].
  apply (CreateFromImage_IsSRGB "a.png" true false (Texture_new "image") globals0 Hid).
Defined.

(** X9, witness: the two textures of [world3], returned and acquired. *)
Lemma pool_is_LIFO_witness :
  heap world3 !! 1%positive = Some texture1
  /\ heap world3 !! 2%positive = Some texture2
  /\ exists w1 w2 w3 w4,
      CollectTempory 1%positive world3 = Some w1
      /\ CollectTempory 2%positive w1 = Some w2
      /\ GetTempory 4 4 0 RGBA8 TEXTURE_2D w2 = Some (2%positive, w3)
      /\ GetTempory 4 4 0 RGBA8 TEXTURE_2D w3 = Some (1%positive, w4)
      /\ heap w4 = heap world3
      /\ globals w4 = globals world3
      /\ free_stack w4 key1 = free_stack world3 key1.
Proof.
  split; [apply world3_texture1 |]. split; [apply world3_texture2 |].
  apply (pool_is_LIFO 4 4 0 RGBA8 TEXTURE_2D world3 1%positive 2%positive
           texture1 texture2 world3_texture1 eq_refl world3_texture2 eq_refl).
Defined.

(** X10, witness: after [pool_history], a 4x4 request is served from the
    pool with a texture of that shape. *)
Lemma pool_hands_out_requested_shape_witness :
  pool_sorted world0
  /\ run_pool_calls pool_history world0 = Some world4
  /\ pool_sorted world4
  /\ exists p w' t,
      GetTempory 4 4 0 RGBA8 TEXTURE_2D world4 = Some (p, w')
      /\ heap w' !! p = Some t
      /\ GetKeyFromPtr t = GetKeyFromParams 4 4 0 RGBA8 TEXTURE_2D
      /\ pool_sorted w'.
Proof.
  split; [apply world0_sorted |]. split; [apply world4_history |].
  assert (Hf : RGBA8 <> UNKNOW) by discriminate.
  apply (pool_hands_out_requested_shape pool_history world0 world4 4 4 0 RGBA8
           TEXTURE_2D world0_sorted world4_history Hf).
Defined.

(** X13, witness: the declared texture is allocated by the first
    UpdateBuffer and left alone by the second. *)
Lemma UpdateBuffer_idempotent_witness :
  m_FilePath declared = ""
  /\ m_ID (UpdateBuffer declared globals0).1 = 1%N
  /\ UpdateBuffer (UpdateBuffer declared globals0).1 (UpdateBuffer declared globals0).2
     = UpdateBuffer declared globals0.
Proof.
  split; [reflexivity |]. split; [reflexivity |].
  apply (UpdateBuffer_idempotent declared globals0). intros _. reflexivity.
Defined.

Lemma world5_history : run_world_ops world_history world0 = Some world5.
Proof. vm_compute. reflexivity. Qed.

Lemma world5_memory : memory (globals world5) = 64.
Proof. vm_compute. reflexivity. Qed.

(** X15, witness: after [world_history] the total is the 64 bytes of the
    one buffer left. *)
Lemma memory_total_is_exact_witness :
  memory (globals world0) = total_resident (heap world0)
  /\ run_world_ops world_history world0 = Some world5
  /\ memory (globals world5) = 64
  /\ memory (globals world5) = total_resident (heap world5)
  /\ 0 <= memory (globals world5).
Proof.
  assert (H0 : memory (globals world0) = total_resident (heap world0)) by reflexivity.
  split; [exact H0 |]. split; [apply world5_history |]. split; [apply world5_memory |].
  apply (memory_total_is_exact world_history world0 world5 H0 world5_history).
Defined.

Lemma world0_cycle : cycle 4 4 0 RGBA8 TEXTURE_2D world0 = Some world2.
Proof. vm_compute. reflexivity. Qed.

(** X16, witness: the cycle on the empty pool leads to [world2], and
    [world2] stays. *)
Lemma cycle_is_steady_witness :
  cycle 4 4 0 RGBA8 TEXTURE_2D world0 = Some world2
  /\ cycle 4 4 0 RGBA8 TEXTURE_2D world2 = Some world2.
Proof.
  split; [apply world0_cycle |].
  apply (cycle_is_steady 4 4 0 RGBA8 TEXTURE_2D world0 world2).
  - intros _. discriminate.
  - intros top rest Hs. simpl in Hs. rewrite lookup_empty in Hs. discriminate.
  - apply world0_cycle.
Defined.

End CoverageRuns.
